(** * drf-tus: the TUS protocol handlers of [rest_framework_tus/views.py]

    A shallow embedding of the request handlers [TusCreateMixin.create],
    [TusPatchMixin.partial_update], [TusPatchMixin.validate_content_type]
    and [TusTerminateMixin.destroy], together with the statements of the
    protocol properties they are expected to satisfy.

    The handlers are written over an explicit world (the table of Upload
    records, the file system, the log of sent signals and the clock) in a
    state-and-exception monad.  What [views.py] imports from modules of the
    package that are not part of the sources at hand (the Upload model
    methods, the helpers of [utils], the package constants and settings) is
    an interface, [Collaborators]; the handlers are generic in it. *)

From Stdlib Require Import ZArith String List Strings.Byte.
From stdpp Require Import base option gmap strings list fin_maps pretty.

Local Open Scope Z_scope.
Local Open Scope string_scope.

(** ** Data model *)

(** Modelled from the spec: the module [states] is not among the sources;
    section 3 lists the states of an upload.  The views name
    [states.INITIAL] and [states.SAVING]. *)
Inductive State := INITIAL | RECEIVING | SAVING | DONE | TERMINATED.

#[global] Instance State_eq_dec : EqDecision State.
Proof. solve_decision. Defined.

Definition state_name (s : State) : string :=
  match s with
  | INITIAL => "INITIAL"
  | RECEIVING => "RECEIVING"
  | SAVING => "SAVING"
  | DONE => "DONE"
  | TERMINATED => "TERMINATED"
  end.

(** The Upload model instance, with the fields the views read or set.
    [upload_metadata] holds the mapping that [json.dumps] serialises;
    [expires] is a timestamp. *)
Record Upload := mkUpload {
  guid : string;
  state : State;
  upload_length : Z;
  upload_offset : Z;
  upload_metadata : list (string * string);
  filename : string;
  temporary_file_path : option string;
  expires : option Z
}.

Definition set_state (s : State) (u : Upload) : Upload :=
  mkUpload (guid u) s (upload_length u) (upload_offset u) (upload_metadata u)
           (filename u) (temporary_file_path u) (expires u).

Definition set_upload_offset (o : Z) (u : Upload) : Upload :=
  mkUpload (guid u) (state u) (upload_length u) o (upload_metadata u)
           (filename u) (temporary_file_path u) (expires u).

Definition set_temporary_file_path (p : option string) (u : Upload) : Upload :=
  mkUpload (guid u) (state u) (upload_length u) (upload_offset u)
           (upload_metadata u) (filename u) p (expires u).

Definition set_expires (e : option Z) (u : Upload) : Upload :=
  mkUpload (guid u) (state u) (upload_length u) (upload_offset u)
           (upload_metadata u) (filename u) (temporary_file_path u) e.

(** The world the handlers run in. *)
Record World := mkWorld {
  db : gmap string Upload;          (* the table behind [get_upload_model().objects] *)
  fs : gmap string (list byte);     (* files, by path *)
  sent : list string;               (* guids passed to [signals.received.send] *)
  now : Z                           (* [timezone.now()] *)
}.

Definition set_db (d : gmap string Upload) (w : World) : World :=
  mkWorld d (fs w) (sent w) (now w).

Definition set_fs (f : gmap string (list byte)) (w : World) : World :=
  mkWorld (db w) f (sent w) (now w).

Definition set_sent (s : list string) (w : World) : World :=
  mkWorld (db w) (fs w) s (now w).

(** ** Exceptions, and the monad of handlers *)

Inductive exn :=
  | Conflict
  | Http404
  | MethodNotAllowed
  | AttributeError (name : string)
  | ValueError (msg : string)
  | FileNotFoundError (path : string)
  | TransitionNotAllowed (msg : string)
  | IOError (msg : string).

(** [str(e)] *)
Definition str_exn (e : exn) : string :=
  match e with
  | Conflict => "Conflict"
  | Http404 => "Not found."
  | MethodNotAllowed => "Method not allowed."
  | AttributeError n => n
  | ValueError m => m
  | FileNotFoundError p => p
  | TransitionNotAllowed m => m
  | IOError m => m
  end.

Inductive Result (A : Type) :=
  | Ok (a : A)
  | Raise (e : exn).
Arguments Ok {A} a.
Arguments Raise {A} e.

(** A computation reads and changes the world and returns or raises; the
    changes made before an exception stay. *)
Definition M (A : Type) : Type := World -> Result A * World.

Definition ret {A} (a : A) : M A := fun w => (Ok a, w).

Definition raise {A} (e : exn) : M A := fun w => (Raise e, w).

Definition bind {A B} (m : M A) (k : A -> M B) : M B :=
  fun w => match m w with
           | (Ok a, w') => k a w'
           | (Raise e, w') => (Raise e, w')
           end.

Notation "'let*' x ':=' m 'in' k" := (bind m (fun x => k))
  (at level 10, x name, m at level 100, k at level 200).
Notation "m ';;' k" := (bind m (fun _ => k))
  (at level 100, k at level 200, right associativity).

(** [try: x = body / except Exception as e: return handler e], followed by
    the rest [k x] of the function. *)
Definition try_except_return {A B} (body : M A) (handler : exn -> B)
    (k : A -> M B) : M B :=
  fun w => match body w with
           | (Ok a, w') => k a w'
           | (Raise e, w') => (Ok (handler e), w')
           end.

(** [try: x = body / except Exception as e: return handler e / finally: fin],
    followed by the rest [k x] of the function.  [fin] runs on both exits of
    [body]; an exception of [fin] replaces the pending return. *)
Definition try_except_return_finally {A B} (body : M A) (handler : exn -> B)
    (fin : M unit) (k : A -> M B) : M B :=
  fun w => match body w with
           | (Ok a, w1) =>
               match fin w1 with
               | (Ok _, w2) => k a w2
               | (Raise e, w2) => (Raise e, w2)
               end
           | (Raise e, w1) =>
               match fin w1 with
               | (Ok _, w2) => (Ok (handler e), w2)
               | (Raise e', w2) => (Raise e', w2)
               end
           end.

(** ** Requests and responses *)

(** [request.META.get('CONTENT_LENGTH', 102400)]: absent, a value [int()]
    converts, or one it rejects with ValueError. *)
Inductive content_length :=
  | CL_absent
  | CL_int (n : Z)
  | CL_invalid (s : string).

(** A decoded request: the attributes the middleware sets (each may be
    absent), the two entries of [META] the views read, the body, and the
    [guid] keyword argument of the route. *)
Record Request := mkRequest {
  kwargs_guid : string;
  req_upload_length : option Z;
  req_upload_defer_length : option Z;
  req_upload_metadata : option (list (string * string));
  req_upload_offset : option Z;
  req_upload_checksum : option (string * string);
  req_content_type : option string;   (* META['headers']['Content-Type'] *)
  req_CONTENT_LENGTH : content_length;
  req_body : list byte
}.

Inductive header_value :=
  | HInt (z : Z)
  | HStr (s : string)
  | HDate (t : Z).    (* [t.strftime('%a, %d %b %Y %H:%M:%S %Z')] *)

Record Response := mkResponse {
  data : option string;
  headers : list (string * header_value);
  status : Z
}.

Definition HTTP_201_CREATED : Z := 201.
Definition HTTP_204_NO_CONTENT : Z := 204.
Definition HTTP_400_BAD_REQUEST : Z := 400.
Definition HTTP_409_CONFLICT : Z := 409.
Definition HTTP_413_REQUEST_ENTITY_TOO_LARGE : Z := 413.

(** The double quote character, for the message texts. *)
Definition dq : string := String (Ascii.ascii_of_nat 34) EmptyString.

(** [int(request.META.get('CONTENT_LENGTH', 102400))] *)
Definition int_content_length (c : content_length) : Result Z :=
  match c with
  | CL_absent => Ok 102400
  | CL_int n => Ok n
  | CL_invalid s => Raise (ValueError s)
  end.

Definition lift {A} (r : Result A) : M A := fun w => (r, w).

(** [getattr(request, name)] without a default *)
Definition getattr {A} (name : string) (a : option A) : M A :=
  match a with
  | Some x => ret x
  | None => raise (AttributeError name)
  end.

(** ** The framework: the ORM, the file system, signals *)

(** [self.get_object()]: the record with the route's guid, else Http404. *)
Definition get_object (request : Request) : M Upload :=
  fun w => match db w !! kwargs_guid request with
           | Some u => (Ok u, w)
           | None => (Raise Http404, w)
           end.

(** [upload.save()] *)
Definition save (u : Upload) : M unit :=
  fun w => (Ok tt, set_db (<[guid u := u]> (db w)) w).

(** [get_upload_model().objects.create(upload_length=..., upload_metadata=...,
    filename=...)]: a record under a new guid; the other fields take the
    defaults of the model (state INITIAL, offset 0, no temporary file, no
    expiry). *)
Definition objects_create (upload_length_ : Z)
    (upload_metadata_ : list (string * string)) (filename_ : string) : M Upload :=
  fun w =>
    let u := mkUpload (fresh (dom (db w))) INITIAL upload_length_ 0
                      upload_metadata_ filename_ None None in
    (Ok u, set_db (<[guid u := u]> (db w)) w).

(** [os.remove(path)] *)
Definition os_remove (path : string) : M unit :=
  fun w => match fs w !! path with
           | Some _ => (Ok tt, set_fs (delete path (fs w)) w)
           | None => (Raise (FileNotFoundError path), w)
           end.

(** [signals.received.send(sender=upload.__class__, instance=upload)] *)
Definition signals_received_send (instance : Upload) : M unit :=
  fun w => (Ok tt, set_sent (sent w ++ [guid instance]) w).

(** [timezone.now()] *)
Definition timezone_now : M Z := fun w => (Ok (now w), w).

(** [upload_metadata.get('filename', '')] *)
Fixpoint dict_get (key : string) (d : list (string * string)) (dflt : string) : string :=
  match d with
  | [] => dflt
  | (k, v) :: d' => if decide (k = key) then v else dict_get key d' dflt
  end.

(** Modelled from the spec: [exceptions.Conflict] is not among the sources;
    by section 4.5 an offset mismatch "is a Conflict (409)".  The other
    lines are the framework's exception handler: 404 for Http404, 405 for
    MethodNotAllowed, 500 for an exception it does not know. *)
Definition status_of_exn (e : exn) : Z :=
  match e with
  | Conflict => 409
  | Http404 => 404
  | MethodNotAllowed => 405
  | _ => 500
  end.

(** The status code the client sees. *)
Definition http_status (r : Result Response) : Z :=
  match r with
  | Ok resp => status resp
  | Raise e => status_of_exn e
  end.

(** ** What the views import from the rest of the package *)

Class Collaborators := {
  (* the package constants and settings *)
  tus_api_checksum_algorithms : list string;
  TUS_MAX_FILE_SIZE : Z;
  TUS_UPLOAD_EXPIRES : option Z;
  reverse_upload_detail : string -> string;
  (* methods of the Upload model; a method that changes the instance
     returns it as it left it *)
  start_receiving : Upload -> M Upload;
  write_data : Upload -> list byte -> Z -> M Upload;
  upload_delete : Upload -> M unit;
  (* utils; [get_or_create_temp_file_for_upload] too returns the instance
     as it left it, the others a path, a verdict, the bytes of a file *)
  get_or_create_temp_file_for_upload : Upload -> M Upload;
  write_chunk_to_temp_file : list byte -> M string;
  is_correct_checksum_for_file : string -> string -> string -> M bool;
  read_bytes : string -> M (list byte)
}.

(** ** The views *)

Section Views.
Context {C : Collaborators}.

(** [add_expiry_header(upload, headers)] *)
Definition add_expiry_header (upload : Upload)
    (headers_ : list (string * header_value)) : list (string * header_value) :=
  match expires upload with
  | Some t => headers_ ++ [("Upload-Expires", HDate t)]
  | None => headers_
  end.

(** [TusCreateMixin.create] *)
Definition create (request : Request) : M Response :=
  (* Get file size from request *)
  let upload_length_ := default (-1) (req_upload_length request) in
  let create_upload : M Response :=
    (* Get metadata from request *)
    let upload_metadata_ := default [] (req_upload_metadata request) in
    (* Get data from metadata *)
    let filename_ := dict_get "filename" upload_metadata_ EmptyString in
    (* Create upload object *)
    let* upload := objects_create upload_length_ upload_metadata_ filename_ in
    (* Prepare response headers *)
    let headers_ := [("Location", HStr (reverse_upload_detail (guid upload)))] in
    (* Maybe we're auto-expiring the upload... *)
    let* upload :=
      match TUS_UPLOAD_EXPIRES with
      | Some delta =>
          let* t := timezone_now in
          let upload := set_expires (Some (t + delta)) upload in
          save upload ;;
          ret upload
      | None => ret upload
      end in
    (* Add upload expiry to headers *)
    let headers_ := add_expiry_header upload headers_ in
    ret (mkResponse None headers_ HTTP_201_CREATED) in
  (* Validate upload_length *)
  if decide (upload_length_ > TUS_MAX_FILE_SIZE) then
    ret (mkResponse
           (Some ("Invalid " ++ dq ++ "Upload-Length" ++ dq ++ ". Maximum value: "
                  ++ pretty TUS_MAX_FILE_SIZE ++ "."))
           [] HTTP_413_REQUEST_ENTITY_TOO_LARGE)
  (* If upload_length is not given, we expect the defer header! *)
  else if decide (upload_length_ = 0 \/ upload_length_ < 0) then
    if decide (default (-1) (req_upload_defer_length request) <> 1) then
      ret (mkResponse
             (Some ("Missing " ++ dq ++ "{Upload-Defer-Length}" ++ dq ++ " header."))
             [] HTTP_400_BAD_REQUEST)
    else create_upload
  else create_upload.

(** [TusPatchMixin.validate_content_type]: the Response it returns, or
    None when it falls off its end. *)
Definition validate_content_type (request : Request) : option Response :=
  let content_type := default EmptyString (req_content_type request) in
  if decide (content_type = EmptyString
             \/ content_type <> "application/upload_offset+octet-stream") then
    Some (mkResponse
            (Some ("Invalid value for " ++ dq ++ "Content-Type" ++ dq ++ " header: "
                   ++ content_type ++ ". Expected " ++ dq
                   ++ "application/upload_offset+octet-stream" ++ dq ++ "."))
            [] HTTP_400_BAD_REQUEST)
  else None.

(** [TusPatchMixin.partial_update], in three parts.  The last part: from
    the comment "Write file" to the end of the function. *)
Definition partial_update_write_file (request : Request) (upload : Upload)
    (chunk_file : string) : M Response :=
  let* chunk_size := lift (int_content_length (req_CONTENT_LENGTH request)) in
  try_except_return_finally
    (let* bytes := read_bytes chunk_file in
     write_data upload bytes chunk_size)
    (fun e => mkResponse (Some (str_exn e)) [] HTTP_400_BAD_REQUEST)
    (os_remove chunk_file)
    (fun upload =>
  let headers_ := [("Upload-Offset", HInt (upload_offset upload))] in
  (if decide (upload_length upload = upload_offset upload) then
     (* Trigger signal *)
     signals_received_send upload
   else ret tt) ;;
  (* Add upload expiry to headers *)
  let headers_ := add_expiry_header upload headers_ in
  ret (mkResponse None headers_ HTTP_204_NO_CONTENT)).

(** The middle part: from the comment "Check checksum" on. *)
Definition partial_update_check_checksum (request : Request) (upload : Upload)
    (chunk_file : string) : M Response :=
  match req_upload_checksum request with
  | Some (algorithm, digest) =>
      if decide (algorithm ∉ tus_api_checksum_algorithms) then
        os_remove chunk_file ;;
        ret (mkResponse
               (Some ("Unsupported Checksum Algorithm: " ++ algorithm ++ "."))
               [] HTTP_400_BAD_REQUEST)
      else
        let* correct := is_correct_checksum_for_file algorithm digest chunk_file in
        if negb correct then
          os_remove chunk_file ;;
          ret (mkResponse (Some "Checksum Mismatch.") [] 460)
        else partial_update_write_file request upload chunk_file
  | None => partial_update_write_file request upload chunk_file
  end.

(** The function, from its start to the comment "Write chunk" and the
    [try] that stages the body. *)
Definition partial_update (request : Request) : M Response :=
  (* Validate content type: the call is a statement, its value is dropped *)
  let _ := validate_content_type request in
  (* Retrieve object *)
  let* upload := get_object request in
  (* Get upload_offset *)
  let* upload_offset_ := getattr "upload_offset" (req_upload_offset request) in
  (* Validate upload_offset *)
  if decide (upload_offset_ <> upload_offset upload) then raise Conflict else
  (* Make sure there is a tempfile for the upload *)
  let* upload := get_or_create_temp_file_for_upload upload in
  (* Change state *)
  let* upload :=
    if decide (state upload = INITIAL) then
      let* upload := start_receiving upload in
      save upload ;;
      ret upload
    else ret upload in
  (* Write chunk *)
  try_except_return (write_chunk_to_temp_file (req_body request))
    (fun e => mkResponse (Some (str_exn e)) [] HTTP_400_BAD_REQUEST)
    (partial_update_check_checksum request upload).

(** [TusTerminateMixin.destroy] *)
Definition destroy (request : Request) : M Response :=
  (* Retrieve object *)
  let* upload := get_object request in
  (* When the upload is still saving, we're not able to destroy the entity *)
  if decide (state upload = SAVING) then
    ret (mkResponse
           (Some ("Unable to terminate upload while in state " ++ dq
                  ++ state_name (state upload) ++ dq ++ "."))
           [] HTTP_409_CONFLICT)
  else
    (* Destroy object *)
    upload_delete upload ;;
    ret (mkResponse None [] HTTP_204_NO_CONTENT).

(** A client that sends its requests one after the other. *)
Fixpoint run (handler : Request -> M Response) (requests : list Request)
    (w : World) : list (Result Response) * World :=
  match requests with
  | [] => ([], w)
  | r :: rs =>
      let '(res, w') := handler r w in
      let '(ress, w'') := run handler rs w' in
      (res :: ress, w'')
  end.

End Views.

(** ** The rest of the package, from its specification

    [models.py], [utils.py] and the package constants are not among the
    sources.  The definitions below give them the behaviour the
    specification describes.  What the specification leaves to the
    environment is a parameter: the digest functions, and whether staging
    or the append meets an I/O error. *)

Record Environment := mkEnvironment {
  env_algorithms : list string;
  env_max_file_size : Z;
  env_upload_expires : option Z;
  env_reverse : string -> string;
  (* the encoded digest of a chunk under a named algorithm *)
  env_checksum : string -> list byte -> string;
  (* the I/O error, if any, that staging this body meets *)
  env_stage_error : list byte -> option string;
  (* the error, if any, that appending these bytes, declared of this size,
     meets *)
  env_write_error : list byte -> Z -> option string
}.

Module Package.
Section Package.
Variable env : Environment.

(** Modelled from the spec: [Upload.start_receiving] (models.py), section
    4.1: "beginReceiving() -> fails with IllegalStateError unless
    state==INITIAL"; the upload is then RECEIVING. *)
Definition start_receiving (u : Upload) : M Upload :=
  if decide (state u = INITIAL) then ret (set_state RECEIVING u)
  else raise (TransitionNotAllowed "start_receiving").

(** Modelled from the spec: [utils.get_or_create_temp_file_for_upload],
    section 3: the record owns a reference to its byte store.  When the
    record has none, or the file is gone, an empty file is made at a new
    path and the reference is saved. *)
Definition get_or_create_temp_file_for_upload (u : Upload) : M Upload :=
  fun w =>
    let make : Result Upload * World :=
      let p := fresh (dom (fs w)) in
      let u' := set_temporary_file_path (Some p) u in
      (Ok u', set_db (<[guid u' := u']> (db w)) (set_fs (<[p := []]> (fs w)) w)) in
    match temporary_file_path u with
    | Some p => match fs w !! p with
                | Some _ => (Ok u, w)
                | None => make
                end
    | None => make
    end.

(** Modelled from the spec: [utils.write_chunk_to_temp_file], section
    4.2: the body is written to a private temporary location and its
    handle returned, or the call fails with an I/O error and leaves no
    staged buffer behind. *)
Definition write_chunk_to_temp_file (body : list byte) : M string :=
  fun w =>
    match env_stage_error env body with
    | Some msg => (Raise (IOError msg), w)
    | None =>
        let p := fresh (dom (fs w)) in
        (Ok p, set_fs (<[p := body]> (fs w)) w)
    end.

(** Modelled from the spec: [utils.read_bytes]: the content of a file. *)
Definition read_bytes (path : string) : M (list byte) :=
  fun w => match fs w !! path with
           | Some bytes => (Ok bytes, w)
           | None => (Raise (FileNotFoundError path), w)
           end.

(** Modelled from the spec: [utils.is_correct_checksum_for_file], section
    4.3: "verify(algorithm, expectedDigestEncoded, chunkHandle) -> bool"
    compares the digest of the chunk's bytes with the expected one. *)
Definition is_correct_checksum_for_file (algorithm digest path : string) : M bool :=
  let* bytes := read_bytes path in
  ret (bool_decide (env_checksum env algorithm bytes = digest)).

(** Modelled from the spec: the record after a commit, section 4.1:
    "commitChunk(bytesWritten) -> advances offset, transitions to DONE if
    offset==length else RECEIVING". *)
Definition commit_chunk (bytes_written : Z) (u : Upload) : Upload :=
  let offset := upload_offset u + bytes_written in
  set_state (if decide (offset = upload_length u) then DONE else RECEIVING)
            (set_upload_offset offset u).

(** Modelled from the spec: [Upload.write_data] (models.py), section 4.4:
    the bytes are appended to the byte store, the record is committed by
    their number and saved; on a write failure nothing changes and the
    error is raised. *)
Definition write_data (u : Upload) (bytes : list byte) (chunk_size : Z) : M Upload :=
  fun w =>
    match env_write_error env bytes chunk_size with
    | Some msg => (Raise (IOError msg), w)
    | None =>
        match temporary_file_path u with
        | None => (Raise (IOError "no byte store"), w)
        | Some p =>
            match fs w !! p with
            | None => (Raise (FileNotFoundError p), w)
            | Some old =>
                let u' := commit_chunk (Z.of_nat (length bytes)) u in
                (Ok u', set_db (<[guid u' := u']> (db w))
                               (set_fs (<[p := (old ++ bytes)%list]> (fs w)) w))
            end
        end
    end.

(** Modelled from the spec: [Upload.delete] (models.py), section 4.5:
    "delete the Upload Record and its staged resources". *)
Definition upload_delete (u : Upload) : M unit :=
  fun w =>
    let fs' := match temporary_file_path u with
               | Some p => delete p (fs w)
               | None => fs w
               end in
    (Ok tt, set_db (delete (guid u) (db w)) (set_fs fs' w)).

Definition collaborators : Collaborators :=
  Build_Collaborators
    (env_algorithms env) (env_max_file_size env) (env_upload_expires env)
    (env_reverse env)
    start_receiving write_data upload_delete
    get_or_create_temp_file_for_upload write_chunk_to_temp_file
    is_correct_checksum_for_file read_bytes.
End Package.
End Package.

(** ** Observations on a world *)

(** The bytes committed for the upload [g]: the content of the file its
    record refers to; nothing when there is no record, reference or file. *)
Definition byte_store (w : World) (g : string) : list byte :=
  match db w !! g with
  | Some u => match temporary_file_path u with
              | Some p => default [] (fs w !! p)
              | None => []
              end
  | None => []
  end.

(** The request addresses the record [u] of the world, and the offset it
    supplies is not the recorded one. *)
Definition offset_mismatch (w : World) (request : Request) : Prop :=
  exists u o, db w !! kwargs_guid request = Some u
              /\ req_upload_offset request = Some o
              /\ o <> upload_offset u.

(** [C] with another [write_data]. *)
Definition with_write_data (wd : Upload -> list byte -> Z -> M Upload)
    (C : Collaborators) : Collaborators :=
  Build_Collaborators
    tus_api_checksum_algorithms TUS_MAX_FILE_SIZE TUS_UPLOAD_EXPIRES
    reverse_upload_detail start_receiving wd upload_delete
    get_or_create_temp_file_for_upload write_chunk_to_temp_file
    is_correct_checksum_for_file read_bytes.

(** The upload as [partial_update] holds it when it stages the chunk: with
    its byte store at [p], and RECEIVING if it was INITIAL. *)
Definition receiving (p : string) (u : Upload) : Upload :=
  if decide (state u = INITIAL)
  then set_state RECEIVING (set_temporary_file_path (Some p) u)
  else set_temporary_file_path (Some p) u.

(** The request has no checksum header, or one that names an advertised
    algorithm and the digest of the body. *)
Definition checksum_passes (env : Environment) (request : Request) : Prop :=
  match req_upload_checksum request with
  | Some (algorithm, digest) =>
      algorithm ∈ env_algorithms env
      /\ env_checksum env algorithm (req_body request) = digest
  | None => True
  end.

(** ** A small installation, for running the handlers *)

Module Sample.

(** One advertised algorithm, whose stand-in digest is the length of the
    chunk in decimal; a maximum size of 1000; no expiry; no I/O error. *)
Definition env : Environment :=
  mkEnvironment ["sha1"] 1000 None (fun g => "/files/" ++ g)
    (fun _ bytes => pretty (Z.of_nat (length bytes)))
    (fun _ => None) (fun _ _ => None).

(** The same, with staging failing. *)
Definition env_stage_fails : Environment :=
  mkEnvironment ["sha1"] 1000 None (fun g => "/files/" ++ g)
    (fun _ bytes => pretty (Z.of_nat (length bytes)))
    (fun _ => Some "No space left on device") (fun _ _ => None).

(** The same, with the append failing. *)
Definition env_write_fails : Environment :=
  mkEnvironment ["sha1"] 1000 None (fun g => "/files/" ++ g)
    (fun _ bytes => pretty (Z.of_nat (length bytes)))
    (fun _ => None) (fun _ _ => Some "No space left on device").

Definition upload0 : Upload :=
  mkUpload "u0" INITIAL 10 0 [] EmptyString None None.

Definition upload_saving : Upload :=
  mkUpload "u0" SAVING 10 3 [] EmptyString None None.

(** A world with the one upload [u0], of declared length 10, untouched. *)
Definition world0 : World := mkWorld {[ "u0" := upload0 ]} ∅ [] 0.

Definition world_saving : World := mkWorld {[ "u0" := upload_saving ]} ∅ [] 0.

Definition abc : list byte := [x61; x62; x63]%byte.

(** PATCH of [body] to [u0] at offset [o]. *)
Definition patch (o : Z) (content_type : option string)
    (checksum : option (string * string)) (body : list byte) : Request :=
  mkRequest "u0" None None None (Some o) checksum content_type
            (CL_int (Z.of_nat (length body))) body.

(** POST declaring [n] bytes. *)
Definition post (n : option Z) (defer : option Z) : Request :=
  mkRequest EmptyString n defer None None None None CL_absent [].

(** DELETE of [u0]. *)
Definition delete_u0 : Request :=
  mkRequest "u0" None None None None None None CL_absent [].

End Sample.

(** ** The other views: Head, Put and the metadata of the API *)

Definition HTTP_200_OK : Z := 200.
Definition HTTP_404_NOT_FOUND : Z := 404.

(** [headers[key]] for a dictionary of headers: the value under the key,
    if any. *)
Fixpoint header_get (key : string) (headers_ : list (string * header_value))
    : option header_value :=
  match headers_ with
  | [] => None
  | (k, v) :: rest => if decide (k = key) then Some v else header_get key rest
  end.

(** [','.join(items)] *)
Fixpoint join_comma (items : list string) : string :=
  match items with
  | [] => EmptyString
  | [x] => x
  | x :: rest => x ++ "," ++ join_comma rest
  end.

(** What [info] uses besides the model: [json.dumps] and [json.loads] of
    the library, between the stored text of [upload_metadata] and the
    mapping the record holds, and [utils.encode_upload_metadata]. *)
Class MetadataCodec := {
  json_dumps : list (string * string) -> string;
  json_loads : string -> list (string * string);
  encode_upload_metadata : list (string * string) -> string
}.

(** The package constants that only [determine_metadata] reads. *)
Class ApiVersion := {
  tus_api_version : string;
  tus_api_version_supported : list string;
  tus_api_extensions : list string
}.

(** [try: x = body / except Http404: return on_404], followed by the rest
    [k x] of the function; any other exception goes on. *)
Definition try_except_Http404_return {A B} (body : M A) (on_404 : B)
    (k : A -> M B) : M B :=
  fun w => match body w with
           | (Ok a, w') => k a w'
           | (Raise Http404, w') => (Ok on_404, w')
           | (Raise e, w') => (Raise e, w')
           end.

Section OtherViews.
Context {C : Collaborators} {J : MetadataCodec} {V : ApiVersion}.

(** [UploadMetadata.determine_metadata] *)
Definition determine_metadata : list (string * header_value) :=
  [ ("Tus-Resumable", HStr tus_api_version);
    ("Tus-Version", HStr (join_comma tus_api_version_supported));
    ("Tus-Extension", HStr (join_comma tus_api_extensions));
    ("Tus-Max-Size", HInt TUS_MAX_FILE_SIZE);
    ("Tus-Checksum-Algorithm", HStr (join_comma tus_api_checksum_algorithms));
    ("Access-Control-Allow-Origin", HStr "*");
    ("Access-Control-Allow-Methods", HStr "PATCH,HEAD,GET,POST,OPTIONS");
    ("Access-Control-Expose-Headers",
     HStr "Tus-Resumable,upload-length,upload-metadata,Location,Upload-Offset");
    ("Access-Control-Allow-Headers",
     HStr "Tus-Resumable,upload-length,upload-metadata,Location,Upload-Offset,content-type");
    ("Cache-Control", HStr "no-store") ].

(** [TusHeadMixin.info] *)
Definition info (request : Request) : M Response :=
  try_except_Http404_return (get_object request)
    (* Instead of simply trowing a 404, we need to add a cache-control
       header to the response *)
    (mkResponse (Some "Not found.") [("Cache-Control", HStr "no-store")]
                HTTP_404_NOT_FOUND)
    (fun upload =>
  let headers_ := [("Upload-Offset", HInt (upload_offset upload));
                   ("Cache-Control", HStr "no-store")] in
  let headers_ :=
    if decide (upload_length upload >= 0)
    then (headers_ ++ [("Upload-Length", HInt (upload_length upload))])%list
    else headers_ in
  (* [if upload.upload_metadata]: the field is the text [json.dumps] made
     of the mapping, and the test is on that text *)
  let headers_ :=
    if decide (json_dumps (upload_metadata upload) <> EmptyString)
    then (headers_
          ++ [("Upload-Metadata",
               HStr (encode_upload_metadata
                       (json_loads (json_dumps (upload_metadata upload)))))])%list
    else headers_ in
  (* Add upload expiry to headers *)
  let headers_ := add_expiry_header upload headers_ in
  ret (mkResponse None headers_ HTTP_200_OK)).

(** [TusPatchMixin.update] *)
Definition update (request : Request) : M Response :=
  raise MethodNotAllowed.

End OtherViews.

(** A request that carries nothing but the guid of its route, as Head and
    Delete requests do. *)
Definition request_for (g : string) : Request :=
  mkRequest g None None None None None None CL_absent [].

(** Every record of the table is stored under its own guid. *)
Definition db_wf (w : World) : Prop :=
  forall g u, db w !! g = Some u -> guid u = g.


(** What a Patch to the record [u] may have done, given its outcome: the
    record is saved under its guid as [u'], with the guid and the declared
    length it had; its offset and its bytes have grown by the body if the
    answer is 204, and not at all otherwise; a 204 carries the new offset. *)
Definition patch_effect_on (request : Request) (w : World) (u : Upload)
    (res : Result Response) (w' : World) (u' : Upload) : Prop :=
  db w' = <[guid u := u']> (db w)
  /\ guid u' = guid u
  /\ upload_length u' = upload_length u
  /\ upload_offset u'
     = upload_offset u
       + (if decide (http_status res = HTTP_204_NO_CONTENT)
          then Z.of_nat (length (req_body request)) else 0)
  /\ byte_store w' (guid u)
     = (byte_store w (guid u)
        ++ (if decide (http_status res = HTTP_204_NO_CONTENT)
            then req_body request else []))%list
  /\ match res with
     | Ok resp =>
         status resp <> HTTP_204_NO_CONTENT
         \/ header_get "Upload-Offset" (headers resp)
            = Some (HInt (upload_offset u'))
     | Raise _ => True
     end.

(** ** More of the small installation *)

Module SampleHead.

(** Stand-ins for the codec of the metadata and for the version constants,
    for running [info] and [determine_metadata]; and a world with a second
    upload. *)
Definition codec : MetadataCodec :=
  Build_MetadataCodec
    (fun m => "{" ++ join_comma (map (fun kv => kv.1 ++ ":" ++ kv.2) m) ++ "}")
    (fun _ => [])
    (fun m => join_comma (map (fun kv => kv.1 ++ " " ++ kv.2) m)).
Definition api : ApiVersion :=
  Build_ApiVersion "1.0.0" ["1.0.0"] ["creation"; "termination"].
Definition world_two : World :=
  mkWorld (<["u1" := mkUpload "u1" RECEIVING 20 7 [] EmptyString None None]>
             {[ "u0" := Sample.upload0 ]}) ∅ [] 0.
End SampleHead.

(** ** Properties of the views, whatever the rest of the package does *)

Section ViewsFacts.
Context {C : Collaborators}.

Lemma partial_update_offset_mismatch (request : Request) (w : World) :
  offset_mismatch w request ->
  partial_update request w = (Raise Conflict, w).
Proof.
  intros (u & o & Hu & Ho & Hne).
  unfold partial_update, bind, get_object. rewrite Hu, Ho. simpl.
  destruct (decide (o <> upload_offset u)); [reflexivity | contradiction].
Qed.

(** The value of [validate_content_type] does not reach the response. *)
Lemma partial_update_content_type (request : Request) (ct : option string) :
  partial_update
    (mkRequest (kwargs_guid request) (req_upload_length request)
               (req_upload_defer_length request) (req_upload_metadata request)
               (req_upload_offset request) (req_upload_checksum request)
               ct (req_CONTENT_LENGTH request) (req_body request))
  = partial_update request.
Proof. reflexivity. Qed.

End ViewsFacts.

(** ** Properties of the views over the package as specified *)

Section PackageFacts.
Variable env : Environment.

(** The package with [wd] for [write_data]; with [Package.write_data env]
    it is the package itself. *)
Local Abbreviation PC wd := (with_write_data wd (Package.collaborators env)).

Lemma bind_ok {A B} (m : M A) (k : A -> M B) (w w' : World) (a : A) :
  m w = (Ok a, w') -> bind m k w = k a w'.
Proof. intros H. unfold bind. rewrite H. reflexivity. Qed.

Lemma fresh_path_free {A} (m : gmap string A) : m !! fresh (dom m) = None.
Proof. apply not_elem_of_dom. apply is_fresh. Qed.

Lemma receiving_offset p u : upload_offset (receiving p u) = upload_offset u.
Proof. unfold receiving. destruct (decide _); reflexivity. Qed.

Lemma receiving_length p u : upload_length (receiving p u) = upload_length u.
Proof. unfold receiving. destruct (decide _); reflexivity. Qed.

Lemma receiving_path p u : temporary_file_path (receiving p u) = Some p.
Proof. unfold receiving. destruct (decide _); reflexivity. Qed.

Lemma receiving_guid p u : guid (receiving p u) = guid u.
Proof. unfold receiving. destruct (decide _); reflexivity. Qed.

Lemma receiving_state p u :
  state (receiving p u) = if decide (state u = INITIAL) then RECEIVING else state u.
Proof. unfold receiving. destruct (decide _); reflexivity. Qed.

(** Staging puts the body at a path that was free. *)
Lemma stage_ok (body : list byte) (w : World) :
  env_stage_error env body = None ->
  Package.write_chunk_to_temp_file env body w
    = (Ok (fresh (dom (fs w))),
       set_fs (<[fresh (dom (fs w)) := body]> (fs w)) w).
Proof.
  intros Hok. unfold Package.write_chunk_to_temp_file. rewrite Hok. reflexivity.
Qed.

(** Removing the staged chunk leaves the world as it was before staging. *)
Lemma remove_staged (body : list byte) (w : World) :
  os_remove (fresh (dom (fs w)))
            (set_fs (<[fresh (dom (fs w)) := body]> (fs w)) w)
    = (Ok tt, w).
Proof.
  unfold os_remove. simpl. rewrite lookup_insert_eq.
  rewrite delete_insert_id by apply fresh_path_free.
  destruct w; reflexivity.
Qed.

(** After [get_or_create_temp_file_for_upload] the record refers to a file,
    which holds the bytes committed so far. *)
Lemma get_or_create_spec (u : Upload) (w : World) :
  db w !! guid u = Some u ->
  exists p w1,
    Package.get_or_create_temp_file_for_upload u w
      = (Ok (set_temporary_file_path (Some p) u), w1)
    /\ db w1 !! guid u = Some (set_temporary_file_path (Some p) u)
    /\ fs w1 !! p = Some (byte_store w (guid u))
    /\ sent w1 = sent w.
Proof.
  intros Hu. unfold Package.get_or_create_temp_file_for_upload, byte_store.
  rewrite Hu.
  destruct u as [g st len off md fn [p|] ex]; simpl in *.
  - destruct (fs w !! p) as [bytes|] eqn:Hp; simpl.
    + exists p, w. rewrite Hp. auto.
    + eexists _, _. split; [reflexivity|]. simpl.
      rewrite !lookup_insert_eq. auto.
  - eexists _, _. split; [reflexivity|]. simpl.
    rewrite !lookup_insert_eq. auto.
Qed.

(** A Patch that addresses a record at its offset reaches the staging of
    its body, in a world [w2] where the record is saved as [receiving]. *)
Lemma patch_prepare (request : Request) (w : World) (u : Upload) :
  db w !! guid u = Some u ->
  kwargs_guid request = guid u ->
  req_upload_offset request = Some (upload_offset u) ->
  exists p w2,
    (forall wd,
       partial_update (C := PC wd) request w
       = try_except_return
           (Package.write_chunk_to_temp_file env (req_body request))
           (fun e => mkResponse (Some (str_exn e)) [] HTTP_400_BAD_REQUEST)
           (partial_update_check_checksum (C := PC wd) request (receiving p u))
           w2)
    /\ db w2 !! guid u = Some (receiving p u)
    /\ fs w2 = fs (Package.get_or_create_temp_file_for_upload u w).2
    /\ fs w2 !! p = Some (byte_store w (guid u))
    /\ sent w2 = sent w.
Proof.
  intros Hu Hg Ho.
  destruct (get_or_create_spec u w Hu) as (p & w1 & Hgc & Hdb1 & Hfs1 & Hsent1).
  exists p. rewrite Hgc. simpl snd.
  assert (Hstart : forall wd,
            partial_update (C := PC wd) request w
            = bind (if decide (state u = INITIAL)
                    then bind (Package.start_receiving
                                 (set_temporary_file_path (Some p) u))
                              (fun upload => bind (save upload) (fun _ => ret upload))
                    else ret (set_temporary_file_path (Some p) u))
                   (fun upload =>
                      try_except_return
                        (Package.write_chunk_to_temp_file env (req_body request))
                        (fun e => mkResponse (Some (str_exn e)) []
                                             HTTP_400_BAD_REQUEST)
                        (partial_update_check_checksum (C := PC wd) request upload))
                   w1).
  { intros wd. unfold partial_update.
    rewrite (bind_ok _ _ w w u)
      by (unfold get_object; rewrite Hg, Hu; reflexivity).
    rewrite Ho. simpl getattr.
    rewrite (bind_ok _ _ w w (upload_offset u)) by reflexivity.
    destruct (decide (upload_offset u <> upload_offset u)); [congruence|].
    rewrite (bind_ok _ _ _ _ _ Hgc). reflexivity. }
  unfold receiving.
  destruct (decide (state u = INITIAL)) as [Hst|Hst].
  - set (u2 := set_state RECEIVING (set_temporary_file_path (Some p) u)).
    exists (set_db (<[guid u := u2]> (db w1)) w1). split.
    + intros wd. rewrite (Hstart wd).
      rewrite (bind_ok _ _ w1 (set_db (<[guid u := u2]> (db w1)) w1) u2);
        [reflexivity|].
      unfold bind, Package.start_receiving.
      change (state (set_temporary_file_path (Some p) u)) with (state u).
      destruct (decide (state u = INITIAL)); [|contradiction]. reflexivity.
    + simpl. rewrite lookup_insert_eq. auto.
  - exists w1. split; [|auto].
    intros wd. rewrite (Hstart wd).
    rewrite (bind_ok _ _ w1 w1 (set_temporary_file_path (Some p) u));
      reflexivity.
Qed.

(** Staging fails: 400, in the world reached before staging. *)
Lemma patch_staging_fails (request : Request) (w : World) (u : Upload)
    (msg : string) :
  db w !! guid u = Some u ->
  kwargs_guid request = guid u ->
  req_upload_offset request = Some (upload_offset u) ->
  env_stage_error env (req_body request) = Some msg ->
  exists p w',
    partial_update (C := Package.collaborators env) request w
      = (Ok (mkResponse (Some msg) [] HTTP_400_BAD_REQUEST), w')
    /\ db w' !! guid u = Some (receiving p u).
Proof.
  intros Hu Hg Ho Herr.
  destruct (patch_prepare request w u Hu Hg Ho) as (p & w2 & Hrun & Hdb & _).
  exists p, w2. split; [|exact Hdb].
  change (Package.collaborators env) with (PC (Package.write_data env)).
  rewrite Hrun.
  unfold try_except_return, Package.write_chunk_to_temp_file. rewrite Herr.
  reflexivity.
Qed.

(** The check of the checksum rejects the staged chunk, whatever
    [write_data] is: the world is the one reached before staging. *)
Lemma patch_checksum_rejected (request : Request) (w : World) (u : Upload)
    (algorithm digest : string) :
  db w !! guid u = Some u ->
  kwargs_guid request = guid u ->
  req_upload_offset request = Some (upload_offset u) ->
  env_stage_error env (req_body request) = None ->
  req_upload_checksum request = Some (algorithm, digest) ->
  algorithm ∉ env_algorithms env
    \/ env_checksum env algorithm (req_body request) <> digest ->
  exists p w',
    (forall wd,
       partial_update (C := PC wd) request w
       = (Ok (if decide (algorithm ∉ env_algorithms env)
              then mkResponse
                     (Some ("Unsupported Checksum Algorithm: " ++ algorithm ++ "."))
                     [] HTTP_400_BAD_REQUEST
              else mkResponse (Some "Checksum Mismatch.") [] 460), w'))
    /\ db w' !! guid u = Some (receiving p u)
    /\ fs w' = fs (Package.get_or_create_temp_file_for_upload u w).2
    /\ fs w' !! p = Some (byte_store w (guid u))
    /\ sent w' = sent w.
Proof.
  intros Hu Hg Ho Hstage Hck Hbad.
  destruct (patch_prepare request w u Hu Hg Ho)
    as (p & w2 & Hrun & Hdb & Hfs & Hp & Hs).
  exists p, w2. split; [|auto].
  intros wd. rewrite Hrun.
  unfold try_except_return. rewrite (stage_ok _ _ Hstage).
  unfold partial_update_check_checksum. rewrite Hck. simpl.
  destruct (decide (algorithm ∉ env_algorithms env)) as [Hin|Hin].
  - unfold bind. rewrite remove_staged. reflexivity.
  - destruct Hbad as [Hbad|Hne]; [contradiction|].
    unfold bind, Package.is_correct_checksum_for_file, bind, Package.read_bytes.
    simpl. rewrite lookup_insert_eq. simpl.
    rewrite bool_decide_eq_false_2 by exact Hne.
    simpl. rewrite remove_staged. reflexivity.
Qed.

(** The checksum, if any, passes: the outcome by the conversion of
    CONTENT_LENGTH and by the outcome of the write. *)
Lemma patch_commit (request : Request) (w : World) (u : Upload) :
  db w !! guid u = Some u ->
  kwargs_guid request = guid u ->
  req_upload_offset request = Some (upload_offset u) ->
  env_stage_error env (req_body request) = None ->
  checksum_passes env request ->
  exists p w2,
    db w2 !! guid u = Some (receiving p u)
    /\ fs w2 = fs (Package.get_or_create_temp_file_for_upload u w).2
    /\ fs w2 !! p = Some (byte_store w (guid u))
    /\ sent w2 = sent w
    /\ partial_update (C := Package.collaborators env) request w
       = match int_content_length (req_CONTENT_LENGTH request) with
         | Raise e =>
             (Raise e,
              set_fs (<[fresh (dom (fs w2)) := req_body request]> (fs w2)) w2)
         | Ok n =>
             match env_write_error env (req_body request) n with
             | Some msg =>
                 (Ok (mkResponse (Some msg) [] HTTP_400_BAD_REQUEST), w2)
             | None =>
                 let u' := Package.commit_chunk
                             (Z.of_nat (length (req_body request)))
                             (receiving p u) in
                 (Ok (mkResponse None
                        (add_expiry_header u'
                           [("Upload-Offset", HInt (upload_offset u'))])
                        HTTP_204_NO_CONTENT),
                  mkWorld
                    (<[guid u := u']> (db w2))
                    (<[p := (byte_store w (guid u) ++ req_body request)%list]>
                       (fs w2))
                    (if decide (upload_length u' = upload_offset u')
                     then sent w ++ [guid u] else sent w)
                    (now w2))
             end
         end.
Proof.
  intros Hu Hg Ho Hstage Hck.
  destruct (patch_prepare request w u Hu Hg Ho)
    as (p & w2 & Hrun & Hdb & Hfs & Hp & Hs).
  exists p, w2. do 4 (split; [assumption|]).
  change (Package.collaborators env) with (PC (Package.write_data env)) at 1.
  rewrite Hrun.
  change (PC (Package.write_data env)) with (Package.collaborators env).
  unfold try_except_return. rewrite (stage_ok _ _ Hstage).
  assert (Hne : p <> fresh (dom (fs w2))).
  { intros ->. rewrite fresh_path_free in Hp. discriminate. }
  set (chunk := fresh (dom (fs w2))) in *.
  set (w3 := set_fs (<[chunk := req_body request]> (fs w2)) w2).
  assert (Hchunk : fs w3 !! chunk = Some (req_body request))
    by apply lookup_insert_eq.
  assert (Hwf : partial_update_check_checksum (C := Package.collaborators env)
                  request (receiving p u) chunk w3
                = partial_update_write_file (C := Package.collaborators env)
                    request (receiving p u) chunk w3).
  { unfold partial_update_check_checksum, checksum_passes in *.
    destruct (req_upload_checksum request) as [[algorithm digest]|]; [|reflexivity].
    destruct Hck as [Hin Heq]. simpl.
    destruct (decide (algorithm ∉ env_algorithms env)); [contradiction|].
    unfold bind, Package.is_correct_checksum_for_file, bind, Package.read_bytes.
    rewrite Hchunk. simpl. rewrite bool_decide_eq_true_2 by exact Heq.
    reflexivity. }
  rewrite Hwf. unfold partial_update_write_file, bind, lift.
  destruct (int_content_length (req_CONTENT_LENGTH request)) as [n|e];
    [|reflexivity].
  unfold try_except_return_finally. simpl.
  unfold Package.read_bytes. rewrite Hchunk.
  unfold Package.write_data.
  destruct (env_write_error env (req_body request) n) as [msg|].
  - unfold w3, chunk. rewrite remove_staged. reflexivity.
  - rewrite receiving_path.
    assert (Hp3 : fs w3 !! p = Some (byte_store w (guid u))).
    { unfold w3. simpl. rewrite lookup_insert_ne by congruence. exact Hp. }
    rewrite Hp3. cbv zeta.
    set (u' := Package.commit_chunk (Z.of_nat (length (req_body request)))
                                    (receiving p u)).
    unfold os_remove. simpl.
    rewrite lookup_insert_ne by exact Hne. rewrite lookup_insert_eq.
    rewrite delete_insert_ne by congruence.
    rewrite delete_insert_id by apply fresh_path_free.
    rewrite receiving_guid, <- Hs.
    destruct (decide (upload_length (receiving p u)
                      = upload_offset (receiving p u)
                        + Z.of_nat (length (req_body request))));
      unfold signals_received_send, ret, w3; simpl;
      rewrite ?receiving_guid; reflexivity.
Qed.

End PackageFacts.

(** C1. A Patch whose offset differs from the recorded [upload_offset] is
    answered 409 Conflict and changes nothing: whatever sequence of such
    requests a client sends, every answer is the Conflict exception, whose
    status is 409, and the world after them (records with their offset and
    state, files, signals) is the world before. *)
Theorem patch_offset_mismatch_conflict {C : Collaborators}
    (requests : list Request) (w : World) :
  Forall (offset_mismatch w) requests ->
  run partial_update requests w
    = (replicate (length requests) (Raise Conflict), w)
  /\ Forall (fun res => http_status res = HTTP_409_CONFLICT)
            (run partial_update requests w).1.
Proof.
  intros Hall.
  assert (Hrun : run partial_update requests w
                 = (replicate (length requests) (Raise Conflict), w)).
  { induction Hall as [|r rs Hr _ IH]; [reflexivity|].
    simpl. rewrite (partial_update_offset_mismatch r w Hr), IH. reflexivity. }
  split; [exact Hrun|].
  rewrite Hrun. simpl. apply Forall_replicate. reflexivity.
Qed.

Lemma patch_offset_mismatch_conflict_witness :
  let C := Package.collaborators Sample.env in
  let r := Sample.patch 5 None None Sample.abc in
  run partial_update [r; r; r] Sample.world0
    = ([Raise Conflict; Raise Conflict; Raise Conflict], Sample.world0)
  /\ Forall (fun res => http_status res = HTTP_409_CONFLICT)
            (run partial_update [r; r; r] Sample.world0).1.
Proof.
  intros C r.
  apply (patch_offset_mismatch_conflict (C := C) [r; r; r] Sample.world0).
  repeat constructor;
    (exists Sample.upload0, 5; split; [reflexivity | split; [reflexivity | discriminate]]).
Defined.

(** C8. A Create request whose declared [upload_length] exceeds the
    configured maximum file size is answered 413, and no record is
    created: the world is left as it was. *)
Theorem create_over_maximum_413 {C : Collaborators}
    (request : Request) (w : World) (n : Z) :
  req_upload_length request = Some n ->
  n > TUS_MAX_FILE_SIZE ->
  exists resp, create request w = (Ok resp, w)
               /\ status resp = HTTP_413_REQUEST_ENTITY_TOO_LARGE.
Proof.
  intros Hn Hgt. unfold create. rewrite Hn. simpl.
  destruct (decide (n > TUS_MAX_FILE_SIZE)); [|contradiction].
  eexists. split; reflexivity.
Qed.

Lemma create_over_maximum_413_witness :
  exists resp,
    create (C := Package.collaborators Sample.env)
           (Sample.post (Some 1001) None) Sample.world0
      = (Ok resp, Sample.world0)
    /\ status resp = HTTP_413_REQUEST_ENTITY_TOO_LARGE.
Proof.
  apply (create_over_maximum_413 (C := Package.collaborators Sample.env)
           (Sample.post (Some 1001) None) Sample.world0 1001).
  - reflexivity.
  - simpl. lia.
Defined.

(** C5, as the code has it.  A Create request that declares an
    [upload_length] of zero and carries no defer-length header is answered
    400, and no record is created: [not upload_length] holds of 0, so the
    request is treated like one without a length. *)
Theorem create_zero_length_rejected {C : Collaborators}
    (request : Request) (w : World) :
  0 <= TUS_MAX_FILE_SIZE ->
  req_upload_length request = Some 0 ->
  req_upload_defer_length request = None ->
  exists resp, create request w = (Ok resp, w)
               /\ status resp = HTTP_400_BAD_REQUEST.
Proof.
  intros Hmax Hlen Hdefer. unfold create. rewrite Hlen, Hdefer. simpl.
  destruct (decide (0 > TUS_MAX_FILE_SIZE)); [lia|].
  destruct (decide (0 = 0 \/ 0 < 0)) as [_|Hn]; [|exfalso; apply Hn; left; reflexivity].
  destruct (decide (-1 <> 1)) as [_|Hn]; [|exfalso; apply Hn; discriminate].
  eexists. split; reflexivity.
Qed.

Lemma create_zero_length_rejected_witness :
  exists resp,
    create (C := Package.collaborators Sample.env)
           (Sample.post (Some 0) None) Sample.world0
      = (Ok resp, Sample.world0)
    /\ status resp = HTTP_400_BAD_REQUEST.
Proof.
  apply (create_zero_length_rejected (C := Package.collaborators Sample.env)
           (Sample.post (Some 0) None) Sample.world0).
  - simpl. lia.
  - reflexivity.
  - reflexivity.
Defined.

(** C2, as the code has it.  A Patch without a Content-Type header, for
    which [validate_content_type] builds the 400 response, is nevertheless
    staged and committed: the answer is 204, the record's offset has
    advanced by the chunk and the chunk's bytes are in the byte store. *)
Theorem patch_content_type_not_enforced :
  let C := Package.collaborators Sample.env in
  let request := Sample.patch 0 None None Sample.abc in
  let outcome := partial_update request Sample.world0 in
  (status <$> validate_content_type request) = Some HTTP_400_BAD_REQUEST
  /\ outcome.1 = Ok (mkResponse None [("Upload-Offset", HInt 3)] HTTP_204_NO_CONTENT)
  /\ (upload_offset <$> db outcome.2 !! "u0") = Some 3
  /\ byte_store outcome.2 "u0" = Sample.abc.
Proof. vm_compute. repeat split; reflexivity. Qed.

(** C3. A Patch that reaches the check of its checksum (it addresses a
    record at its recorded offset and its body is staged) with a checksum
    header whose algorithm is advertised but whose digest is not that of
    the staged bytes is answered 460; the staged chunk file is deleted, the
    files being those there were before staging; the record's
    [upload_offset] is the one it had. *)
Theorem patch_checksum_mismatch_460 (env : Environment) (request : Request)
    (w : World) (u : Upload) (algorithm digest : string) :
  db w !! guid u = Some u ->
  kwargs_guid request = guid u ->
  req_upload_offset request = Some (upload_offset u) ->
  env_stage_error env (req_body request) = None ->
  req_upload_checksum request = Some (algorithm, digest) ->
  algorithm ∈ env_algorithms env ->
  env_checksum env algorithm (req_body request) <> digest ->
  exists w',
    partial_update (C := Package.collaborators env) request w
      = (Ok (mkResponse (Some "Checksum Mismatch.") [] 460), w')
    /\ fs w' = fs (Package.get_or_create_temp_file_for_upload u w).2
    /\ fs w' !! fresh (dom (fs (Package.get_or_create_temp_file_for_upload u w).2))
       = None
    /\ (upload_offset <$> db w' !! guid u) = Some (upload_offset u)
    /\ (upload_offset <$> db w !! guid u) = Some (upload_offset u).
Proof.
  intros Hu Hg Ho Hstage Hck Hin Hne.
  destruct (patch_checksum_rejected env request w u algorithm digest
              Hu Hg Ho Hstage Hck (or_intror Hne))
    as (p & w' & Hrun & Hdb & Hfs & _).
  exists w'. split.
  - specialize (Hrun (Package.write_data env)).
    destruct (decide (algorithm ∉ env_algorithms env)); [contradiction|].
    exact Hrun.
  - split; [exact Hfs|]. split; [rewrite <- Hfs; apply fresh_path_free|].
    rewrite Hdb, Hu. simpl. rewrite receiving_offset. auto.
Qed.

Lemma patch_checksum_mismatch_460_witness :
  exists w',
    partial_update (C := Package.collaborators Sample.env)
                   (Sample.patch 0 None (Some ("sha1", "4")) Sample.abc)
                   Sample.world0
      = (Ok (mkResponse (Some "Checksum Mismatch.") [] 460), w')
    /\ fs w' = fs (Package.get_or_create_temp_file_for_upload
                     Sample.upload0 Sample.world0).2
    /\ fs w' !! fresh (dom (fs (Package.get_or_create_temp_file_for_upload
                                  Sample.upload0 Sample.world0).2))
       = None
    /\ (upload_offset <$> db w' !! "u0") = Some 0
    /\ (upload_offset <$> db Sample.world0 !! "u0") = Some 0.
Proof.
  apply (patch_checksum_mismatch_460 Sample.env
           (Sample.patch 0 None (Some ("sha1", "4")) Sample.abc)
           Sample.world0 Sample.upload0 "sha1" "4").
  - reflexivity.
  - reflexivity.
  - reflexivity.
  - reflexivity.
  - reflexivity.
  - simpl. apply list_elem_of_here.
  - vm_compute. discriminate.
Defined.

(** C4. A Patch that reaches the check of its checksum with a checksum
    header whose algorithm is not advertised is answered 400; the staged
    chunk file is removed; the bytes committed for the upload are those
    there were; and the answer and the world are the same whatever
    [write_data] is, which is therefore not called. *)
Theorem patch_unsupported_algorithm_400 (env : Environment) (request : Request)
    (w : World) (u : Upload) (algorithm digest : string) :
  db w !! guid u = Some u ->
  kwargs_guid request = guid u ->
  req_upload_offset request = Some (upload_offset u) ->
  env_stage_error env (req_body request) = None ->
  req_upload_checksum request = Some (algorithm, digest) ->
  algorithm ∉ env_algorithms env ->
  exists resp w',
    partial_update (C := Package.collaborators env) request w = (Ok resp, w')
    /\ status resp = HTTP_400_BAD_REQUEST
    /\ (forall wd,
          partial_update (C := with_write_data wd (Package.collaborators env))
                         request w = (Ok resp, w'))
    /\ fs w' = fs (Package.get_or_create_temp_file_for_upload u w).2
    /\ fs w' !! fresh (dom (fs (Package.get_or_create_temp_file_for_upload u w).2))
       = None
    /\ byte_store w' (guid u) = byte_store w (guid u).
Proof.
  intros Hu Hg Ho Hstage Hck Hin.
  destruct (patch_checksum_rejected env request w u algorithm digest
              Hu Hg Ho Hstage Hck (or_introl Hin))
    as (p & w' & Hrun & Hdb & Hfs & Hp & _).
  destruct (decide (algorithm ∉ env_algorithms env)); [|contradiction].
  eexists _, w'. split; [exact (Hrun (Package.write_data env))|].
  split; [reflexivity|]. split; [exact Hrun|].
  split; [exact Hfs|]. split; [rewrite <- Hfs; apply fresh_path_free|].
  unfold byte_store at 1. rewrite Hdb, receiving_path, Hp. reflexivity.
Qed.

Lemma patch_unsupported_algorithm_400_witness :
  exists resp w',
    partial_update (C := Package.collaborators Sample.env)
                   (Sample.patch 0 None (Some ("md5", "3")) Sample.abc)
                   Sample.world0 = (Ok resp, w')
    /\ status resp = HTTP_400_BAD_REQUEST
    /\ (forall wd,
          partial_update
            (C := with_write_data wd (Package.collaborators Sample.env))
            (Sample.patch 0 None (Some ("md5", "3")) Sample.abc)
            Sample.world0 = (Ok resp, w'))
    /\ fs w' = fs (Package.get_or_create_temp_file_for_upload
                     Sample.upload0 Sample.world0).2
    /\ fs w' !! fresh (dom (fs (Package.get_or_create_temp_file_for_upload
                                  Sample.upload0 Sample.world0).2))
       = None
    /\ byte_store w' "u0" = byte_store Sample.world0 "u0".
Proof.
  apply (patch_unsupported_algorithm_400 Sample.env
           (Sample.patch 0 None (Some ("md5", "3")) Sample.abc)
           Sample.world0 Sample.upload0 "md5" "3").
  - reflexivity.
  - reflexivity.
  - reflexivity.
  - reflexivity.
  - reflexivity.
  - simpl. intros H. apply list_elem_of_singleton in H. discriminate.
Defined.

(** C7. A Patch that reaches the commit (its body is staged, its checksum
    if any passes, CONTENT_LENGTH converts to [n]): the staged chunk file is
    deleted whether [write_data] returns or raises; when [write_data]
    raises, the answer is 400 with the message of the error, the record's
    [upload_offset] is the one it had before the chunk and no file has
    changed; when it returns, the answer is 204. *)
Theorem patch_write_failure_400 (env : Environment) (request : Request)
    (w : World) (u : Upload) (n : Z) :
  db w !! guid u = Some u ->
  kwargs_guid request = guid u ->
  req_upload_offset request = Some (upload_offset u) ->
  env_stage_error env (req_body request) = None ->
  checksum_passes env request ->
  int_content_length (req_CONTENT_LENGTH request) = Ok n ->
  exists res w',
    partial_update (C := Package.collaborators env) request w = (res, w')
    /\ fs w' !! fresh (dom (fs (Package.get_or_create_temp_file_for_upload u w).2))
       = None
    /\ match env_write_error env (req_body request) n with
       | Some msg =>
           res = Ok (mkResponse (Some msg) [] HTTP_400_BAD_REQUEST)
           /\ (upload_offset <$> db w' !! guid u) = Some (upload_offset u)
           /\ fs w' = fs (Package.get_or_create_temp_file_for_upload u w).2
       | None => http_status res = HTTP_204_NO_CONTENT
       end.
Proof.
  intros Hu Hg Ho Hstage Hck Hn.
  destruct (patch_commit env request w u Hu Hg Ho Hstage Hck)
    as (p & w2 & Hdb & Hfs & Hp & Hs & Hrun).
  rewrite Hn in Hrun. rewrite <- Hfs.
  destruct (env_write_error env (req_body request) n) as [msg|].
  - eexists _, _. split; [exact Hrun|].
    split; [apply fresh_path_free|].
    split; [reflexivity|].
    rewrite Hdb. simpl. rewrite receiving_offset. auto.
  - eexists _, _. split; [exact Hrun|].
    split; [|reflexivity].
    simpl. rewrite lookup_insert_ne; [apply fresh_path_free|].
    intros ->. rewrite fresh_path_free in Hp. discriminate.
Qed.

Lemma patch_write_failure_400_witness :
  (exists res w',
     partial_update (C := Package.collaborators Sample.env_write_fails)
                    (Sample.patch 0 None None Sample.abc) Sample.world0
       = (res, w')
     /\ fs w' !! fresh (dom (fs (Package.get_or_create_temp_file_for_upload
                                   Sample.upload0 Sample.world0).2))
        = None
     /\ (res = Ok (mkResponse (Some "No space left on device") []
                              HTTP_400_BAD_REQUEST)
         /\ (upload_offset <$> db w' !! "u0") = Some 0
         /\ fs w' = fs (Package.get_or_create_temp_file_for_upload
                          Sample.upload0 Sample.world0).2))
  /\ (exists res w',
        partial_update (C := Package.collaborators Sample.env)
                       (Sample.patch 0 None None Sample.abc) Sample.world0
          = (res, w')
        /\ fs w' !! fresh (dom (fs (Package.get_or_create_temp_file_for_upload
                                      Sample.upload0 Sample.world0).2))
           = None
        /\ http_status res = HTTP_204_NO_CONTENT).
Proof.
  split.
  - apply (patch_write_failure_400 Sample.env_write_fails
             (Sample.patch 0 None None Sample.abc) Sample.world0
             Sample.upload0 3); [reflexivity..|exact I|reflexivity].
  - apply (patch_write_failure_400 Sample.env
             (Sample.patch 0 None None Sample.abc) Sample.world0
             Sample.upload0 3); [reflexivity..|exact I|reflexivity].
Defined.

(** C10. A Patch to an upload in state INITIAL whose staging fails is
    answered 400 with the message of the error, and the record is then
    saved in state RECEIVING: the transition made before staging is not
    undone. *)
Theorem patch_staging_failure_keeps_receiving (env : Environment)
    (request : Request) (w : World) (u : Upload) (msg : string) :
  db w !! guid u = Some u ->
  kwargs_guid request = guid u ->
  req_upload_offset request = Some (upload_offset u) ->
  state u = INITIAL ->
  env_stage_error env (req_body request) = Some msg ->
  exists w',
    partial_update (C := Package.collaborators env) request w
      = (Ok (mkResponse (Some msg) [] HTTP_400_BAD_REQUEST), w')
    /\ (state <$> db w !! guid u) = Some INITIAL
    /\ (state <$> db w' !! guid u) = Some RECEIVING.
Proof.
  intros Hu Hg Ho Hst Herr.
  destruct (patch_staging_fails env request w u msg Hu Hg Ho Herr)
    as (p & w' & Hrun & Hdb).
  exists w'. split; [exact Hrun|].
  rewrite Hu, Hdb. simpl. rewrite receiving_state, Hst. auto.
Qed.

Lemma patch_staging_failure_keeps_receiving_witness :
  exists w',
    partial_update (C := Package.collaborators Sample.env_stage_fails)
                   (Sample.patch 0 None None Sample.abc) Sample.world0
      = (Ok (mkResponse (Some "No space left on device") []
                        HTTP_400_BAD_REQUEST), w')
    /\ (state <$> db Sample.world0 !! "u0") = Some INITIAL
    /\ (state <$> db w' !! "u0") = Some RECEIVING.
Proof.
  apply (patch_staging_failure_keeps_receiving Sample.env_stage_fails
           (Sample.patch 0 None None Sample.abc) Sample.world0
           Sample.upload0 "No space left on device");
    reflexivity.
Defined.

(** C9. A Terminate request for an upload in state SAVING is answered 409
    and leaves the world as it was, the record being in the table with
    every field as before; for an upload in any other state the answer is
    204 and the record is no longer in the table. *)
Theorem destroy_saving_409_else_204 (env : Environment) (request : Request)
    (w : World) (u : Upload) :
  db w !! guid u = Some u ->
  kwargs_guid request = guid u ->
  exists resp w',
    destroy (C := Package.collaborators env) request w = (Ok resp, w')
    /\ if decide (state u = SAVING)
       then status resp = HTTP_409_CONFLICT
            /\ w' = w /\ db w' !! guid u = Some u
       else resp = mkResponse None [] HTTP_204_NO_CONTENT
            /\ db w' = delete (guid u) (db w) /\ db w' !! guid u = None.
Proof.
  intros Hu Hg.
  assert (Hget : get_object request w = (Ok u, w))
    by (unfold get_object; rewrite Hg, Hu; reflexivity).
  unfold destroy. rewrite (bind_ok _ _ _ _ _ Hget).
  destruct (decide (state u = SAVING)).
  - eexists _, _. split; [reflexivity|]. auto.
  - eexists _, _. split; [reflexivity|]. simpl.
    split; [reflexivity|]. split; [reflexivity | apply lookup_delete_eq].
Qed.

Lemma destroy_saving_409_else_204_witness :
  (exists resp w',
     destroy (C := Package.collaborators Sample.env) Sample.delete_u0
             Sample.world_saving = (Ok resp, w')
     /\ (status resp = HTTP_409_CONFLICT
         /\ w' = Sample.world_saving
         /\ db w' !! "u0" = Some Sample.upload_saving))
  /\ (exists resp w',
        destroy (C := Package.collaborators Sample.env) Sample.delete_u0
                Sample.world0 = (Ok resp, w')
        /\ (resp = mkResponse None [] HTTP_204_NO_CONTENT
            /\ db w' = delete "u0" (db Sample.world0)
            /\ db w' !! "u0" = None)).
Proof.
  split.
  - apply (destroy_saving_409_else_204 Sample.env Sample.delete_u0
             Sample.world_saving Sample.upload_saving); reflexivity.
  - apply (destroy_saving_409_else_204 Sample.env Sample.delete_u0
             Sample.world0 Sample.upload0); reflexivity.
Defined.

(** C6, the claim refuted.  A Patch of three bytes to an upload of declared
    length 10 is committed (the answer is 204 and the record's offset is 3)
    and no notification is sent. *)
Lemma patch_commit_without_notification :
  let C := Package.collaborators Sample.env in
  let outcome := partial_update (Sample.patch 0 None None Sample.abc)
                                Sample.world0 in
  http_status outcome.1 = HTTP_204_NO_CONTENT
  /\ (upload_offset <$> db outcome.2 !! "u0") = Some 3
  /\ (upload_length <$> db outcome.2 !! "u0") = Some 10
  /\ sent outcome.2 = sent Sample.world0
  /\ sent outcome.2 = [].
Proof. vm_compute. repeat split; reflexivity. Qed.

(** C6, amended.  When a Patch commits its chunk (the answer is 204), the
    record's offset has advanced by the chunk, and the "received"
    notification is sent, once, if the new offset equals the declared
    length; otherwise none is sent. *)
Theorem patch_notifies_when_complete (env : Environment) (request : Request)
    (w w' : World) (u : Upload) (resp : Response) :
  db w !! guid u = Some u ->
  kwargs_guid request = guid u ->
  partial_update (C := Package.collaborators env) request w = (Ok resp, w') ->
  status resp = HTTP_204_NO_CONTENT ->
  exists u',
    db w' !! guid u = Some u'
    /\ upload_offset u'
       = upload_offset u + Z.of_nat (length (req_body request))
    /\ upload_length u' = upload_length u
    /\ sent w' = if decide (upload_length u' = upload_offset u')
                 then (sent w ++ [guid u])%list else sent w.
Proof.
  intros Hu Hg Hrun H204.
  (* the offset is supplied and is the recorded one *)
  destruct (req_upload_offset request) as [o|] eqn:Ho.
  2:{ unfold partial_update in Hrun.
      rewrite (bind_ok _ _ w w u) in Hrun
        by (unfold get_object; rewrite Hg, Hu; reflexivity).
      rewrite Ho in Hrun. discriminate Hrun. }
  destruct (decide (o = upload_offset u)) as [->|Hne].
  2:{ rewrite (partial_update_offset_mismatch request w) in Hrun;
        [discriminate Hrun|].
      exists u, o. rewrite Hg. auto. }
  (* staging succeeds *)
  destruct (env_stage_error env (req_body request)) as [msg|] eqn:Hstage.
  { destruct (patch_staging_fails env request w u msg Hu Hg Ho Hstage)
      as (p & w2 & Hrun' & _).
    rewrite Hrun' in Hrun. injection Hrun as <- <-. discriminate H204. }
  (* the checksum, if any, passes *)
  assert (Hck : checksum_passes env request).
  { unfold checksum_passes.
    destruct (req_upload_checksum request) as [[algorithm digest]|] eqn:Hck;
      [|exact I].
    destruct (decide (algorithm ∈ env_algorithms env)) as [Hin|Hin];
      [destruct (decide (env_checksum env algorithm (req_body request) = digest))
         as [Heq|Hneq]; [split; assumption|]|].
    - destruct (patch_checksum_rejected env request w u algorithm digest
                  Hu Hg Ho Hstage Hck (or_intror Hneq))
        as (p & w2 & Hrun' & _).
      pose proof (Hrun' (Package.write_data env)) as Hr.
      change (with_write_data _ _) with (Package.collaborators env) in Hr.
      rewrite Hr in Hrun. injection Hrun as <- <-.
      destruct (decide (algorithm ∉ env_algorithms env)); discriminate H204.
    - destruct (patch_checksum_rejected env request w u algorithm digest
                  Hu Hg Ho Hstage Hck (or_introl Hin))
        as (p & w2 & Hrun' & _).
      pose proof (Hrun' (Package.write_data env)) as Hr.
      change (with_write_data _ _) with (Package.collaborators env) in Hr.
      rewrite Hr in Hrun. injection Hrun as <- <-.
      destruct (decide (algorithm ∉ env_algorithms env)); discriminate H204. }
  (* the commit *)
  destruct (patch_commit env request w u Hu Hg Ho Hstage Hck)
    as (p & w2 & Hdb & Hfs & Hp & Hs & Hrun').
  rewrite Hrun' in Hrun.
  destruct (int_content_length (req_CONTENT_LENGTH request)) as [n|e];
    [|discriminate Hrun].
  destruct (env_write_error env (req_body request) n) as [msg|].
  { injection Hrun as <- <-. discriminate H204. }
  cbv zeta in Hrun. injection Hrun as <- <-.
  eexists. split; [simpl; apply lookup_insert_eq|].
  simpl. rewrite receiving_offset, receiving_length. auto.
Qed.

Lemma patch_notifies_when_complete_witness :
  let w' := (partial_update (C := Package.collaborators Sample.env)
               (Sample.patch 0 None None Sample.abc) Sample.world0).2 in
  exists u',
    db w' !! "u0" = Some u'
    /\ upload_offset u' = 0 + 3
    /\ upload_length u' = 10
    /\ sent w' = if decide (upload_length u' = upload_offset u')
                 then (sent Sample.world0 ++ ["u0"])%list
                 else sent Sample.world0.
Proof.
  intros w'.
  apply (patch_notifies_when_complete Sample.env
           (Sample.patch 0 None None Sample.abc) Sample.world0 w'
           Sample.upload0
           (mkResponse None [("Upload-Offset", HInt 3)] HTTP_204_NO_CONTENT)).
  - reflexivity.
  - reflexivity.
  - vm_compute. reflexivity.
  - reflexivity.
Defined.

(** ** Further properties of the views *)

(** The answer of [create], case by case. *)
Lemma create_cases {C : Collaborators} (request : Request) (w : World) :
  exists resp w',
    create request w = (Ok resp, w')
    /\ status resp
       = (if decide (default (-1) (req_upload_length request) > TUS_MAX_FILE_SIZE)
          then HTTP_413_REQUEST_ENTITY_TOO_LARGE
          else if decide (default (-1) (req_upload_length request) <= 0
                          /\ default (-1) (req_upload_defer_length request) <> 1)
               then HTTP_400_BAD_REQUEST
               else HTTP_201_CREATED)
    /\ (status resp = HTTP_201_CREATED \/ w' = w).
Proof.
  unfold create.
  set (n := default (-1) (req_upload_length request)).
  set (d := default (-1) (req_upload_defer_length request)).
  destruct (decide (n > TUS_MAX_FILE_SIZE)).
  { eexists _, _. split; [reflexivity|]. split; [reflexivity|]. right; reflexivity. }
  unfold bind, objects_create.
  destruct (decide (n = 0 \/ n < 0)) as [Hz|Hz];
    [destruct (decide (d <> 1)) as [Hd|Hd]|].
  - eexists _, _. split; [reflexivity|]. split; [|right; reflexivity].
    destruct (decide (n <= 0 /\ d <> 1)) as [|Hn]; [reflexivity|].
    exfalso. apply Hn. split; [lia|assumption].
  - destruct (decide (n <= 0 /\ d <> 1)) as [[_ ?]|_]; [contradiction|].
    destruct TUS_UPLOAD_EXPIRES; eexists _, _;
      (split; [reflexivity|]); split; try reflexivity; left; reflexivity.
  - destruct (decide (n <= 0 /\ d <> 1)) as [[? _]|_]; [exfalso; apply Hz; lia|].
    destruct TUS_UPLOAD_EXPIRES; eexists _, _;
      (split; [reflexivity|]); split; try reflexivity; left; reflexivity.
Qed.


(** What a 201 of [create] has made. *)
Lemma fresh_guid_free (w : World) : db w !! fresh (dom (db w)) = None.
Proof. apply not_elem_of_dom. apply is_fresh. Qed.

Lemma create_effect {C : Collaborators}
    (request : Request) (w w' : World) (resp : Response) :
  create request w = (Ok resp, w') ->
  status resp = HTTP_201_CREATED ->
  exists u,
    db w !! guid u = None
    /\ db w' = <[guid u := u]> (db w)
    /\ state u = INITIAL
    /\ upload_offset u = 0
    /\ upload_length u = default (-1) (req_upload_length request)
    /\ upload_metadata u = default [] (req_upload_metadata request)
    /\ filename u
       = dict_get "filename" (default [] (req_upload_metadata request)) EmptyString
    /\ temporary_file_path u = None
    /\ expires u = (fun delta => now w + delta) <$> TUS_UPLOAD_EXPIRES
    /\ header_get "Location" (headers resp)
       = Some (HStr (reverse_upload_detail (guid u)))
    /\ header_get "Upload-Expires" (headers resp) = HDate <$> expires u
    /\ fs w' = fs w /\ sent w' = sent w /\ now w' = now w.
Proof.
  unfold create.
  set (n := default (-1) (req_upload_length request)).
  set (d := default (-1) (req_upload_defer_length request)).
  intros Hrun H201.
  assert (Hmade :
    (let* upload := objects_create n (default [] (req_upload_metadata request))
                      (dict_get "filename"
                         (default [] (req_upload_metadata request)) EmptyString) in
     let* saved := match TUS_UPLOAD_EXPIRES with
                   | Some delta =>
                       let* t := timezone_now in
                       save (set_expires (Some (t + delta)) upload);;
                       ret (set_expires (Some (t + delta)) upload)
                   | None => ret upload
                   end in
     ret (mkResponse None
            (add_expiry_header saved
               [("Location", HStr (reverse_upload_detail (guid upload)))])
            HTTP_201_CREATED)) w = (Ok resp, w')).
  { destruct (decide (n > TUS_MAX_FILE_SIZE)).
    { injection Hrun as <- <-. discriminate H201. }
    destruct (decide (n = 0 \/ n < 0)); [destruct (decide (d <> 1))|];
      try exact Hrun.
    injection Hrun as <- <-. discriminate H201. }
  clear Hrun. unfold bind, objects_create, timezone_now, save, ret in Hmade.
  destruct TUS_UPLOAD_EXPIRES as [delta|]; simpl in Hmade;
    injection Hmade as <- <-;
    eexists (mkUpload (fresh (dom (db w))) INITIAL n 0 _ _ None _); simpl;
    (split; [apply fresh_guid_free|]);
    (split; [rewrite ?insert_insert_eq; reflexivity|]);
    repeat (split; [reflexivity|]); reflexivity.
Qed.

(** [info] on a record of the table. *)
Lemma info_found {J : MetadataCodec} (request : Request) (w : World) (u : Upload) :
  db w !! kwargs_guid request = Some u ->
  exists resp,
    info request w = (Ok resp, w)
    /\ status resp = HTTP_200_OK
    /\ header_get "Cache-Control" (headers resp) = Some (HStr "no-store")
    /\ header_get "Upload-Offset" (headers resp) = Some (HInt (upload_offset u))
    /\ header_get "Upload-Length" (headers resp)
       = (if decide (upload_length u >= 0) then Some (HInt (upload_length u))
          else None)
    /\ header_get "Upload-Expires" (headers resp) = HDate <$> expires u.
Proof.
  intros Hu. unfold info, try_except_Http404_return, get_object. rewrite Hu.
  eexists. split; [reflexivity|]. unfold add_expiry_header. simpl.
  destruct (decide (upload_length u >= 0));
    destruct (decide (json_dumps (upload_metadata u) <> EmptyString));
    destruct (expires u); repeat split; reflexivity.
Qed.

Section PatchEffect.
Variable env : Environment.
Local Abbreviation PK := (Package.collaborators env).

Lemma get_or_create_db (u : Upload) (w : World) :
  db w !! guid u = Some u ->
  exists p w1,
    Package.get_or_create_temp_file_for_upload u w
      = (Ok (set_temporary_file_path (Some p) u), w1)
    /\ db w1 = <[guid u := set_temporary_file_path (Some p) u]> (db w)
    /\ fs w1 !! p = Some (byte_store w (guid u))
    /\ sent w1 = sent w
    /\ (forall q bytes, fs w !! q = Some bytes -> fs w1 !! q = Some bytes).
Proof.
  intros Hu. unfold Package.get_or_create_temp_file_for_upload, byte_store.
  rewrite Hu.
  destruct u as [g st len off md fn [p|] ex]; simpl in *.
  - destruct (fs w !! p) as [bytes|] eqn:Hp; simpl.
    + exists p, w. rewrite Hp. rewrite insert_id by exact Hu. auto.
    + eexists _, _. split; [reflexivity|]. simpl.
      rewrite !lookup_insert_eq. do 3 (split; [reflexivity|]).
      intros q bytes Hq. rewrite lookup_insert_ne; [exact Hq|].
      intros <-. rewrite fresh_path_free in Hq. discriminate.
  - eexists _, _. split; [reflexivity|]. simpl.
    rewrite !lookup_insert_eq. do 3 (split; [reflexivity|]).
    intros q bytes Hq. rewrite lookup_insert_ne; [exact Hq|].
    intros <-. rewrite fresh_path_free in Hq. discriminate.
Qed.

Lemma patch_prepare_db (request : Request) (w : World) (u : Upload) :
  db w !! guid u = Some u ->
  kwargs_guid request = guid u ->
  req_upload_offset request = Some (upload_offset u) ->
  exists p w2,
    partial_update (C := PK) request w
    = try_except_return
        (Package.write_chunk_to_temp_file env (req_body request))
        (fun e => mkResponse (Some (str_exn e)) [] HTTP_400_BAD_REQUEST)
        (partial_update_check_checksum (C := PK) request (receiving p u))
        w2
    /\ db w2 = <[guid u := receiving p u]> (db w)
    /\ fs w2 !! p = Some (byte_store w (guid u))
    /\ sent w2 = sent w
    /\ (forall q bytes, fs w !! q = Some bytes -> fs w2 !! q = Some bytes).
Proof.
  intros Hu Hg Ho.
  destruct (get_or_create_db u w Hu) as (p & w1 & Hgc & Hdb1 & Hfs1 & Hsent1 & Hold).
  exists p.
  assert (Hstart :
            partial_update (C := PK) request w
            = bind (if decide (state u = INITIAL)
                    then bind (Package.start_receiving
                                 (set_temporary_file_path (Some p) u))
                              (fun upload => bind (save upload) (fun _ => ret upload))
                    else ret (set_temporary_file_path (Some p) u))
                   (fun upload =>
                      try_except_return
                        (Package.write_chunk_to_temp_file env (req_body request))
                        (fun e => mkResponse (Some (str_exn e)) []
                                             HTTP_400_BAD_REQUEST)
                        (partial_update_check_checksum (C := PK) request upload))
                   w1).
  { unfold partial_update.
    rewrite (bind_ok _ _ w w u)
      by (unfold get_object; rewrite Hg, Hu; reflexivity).
    rewrite Ho. simpl getattr.
    rewrite (bind_ok _ _ w w (upload_offset u)) by reflexivity.
    destruct (decide (upload_offset u <> upload_offset u)); [congruence|].
    rewrite (bind_ok _ _ _ _ _ Hgc). reflexivity. }
  rewrite Hstart. clear Hstart. unfold receiving.
  destruct (decide (state u = INITIAL)) as [Hst|Hst].
  - set (u2 := set_state RECEIVING (set_temporary_file_path (Some p) u)).
    exists (set_db (<[guid u := u2]> (db w1)) w1). split.
    + rewrite (bind_ok _ _ w1 (set_db (<[guid u := u2]> (db w1)) w1) u2);
        [reflexivity|].
      unfold bind, Package.start_receiving.
      change (state (set_temporary_file_path (Some p) u)) with (state u).
      destruct (decide (state u = INITIAL)); [|contradiction]. reflexivity.
    + simpl. rewrite Hdb1, insert_insert_eq. auto.
  - exists w1. split; [|auto].
    rewrite (bind_ok _ _ w1 w1 (set_temporary_file_path (Some p) u));
      reflexivity.
Qed.

(** What a Patch does once it has passed the check of the offset, case by
    case. *)
Lemma patch_cases (request : Request) (w : World) (u : Upload) :
  db w !! guid u = Some u ->
  kwargs_guid request = guid u ->
  req_upload_offset request = Some (upload_offset u) ->
  exists p w2,
    db w2 = <[guid u := receiving p u]> (db w)
    /\ fs w2 !! p = Some (byte_store w (guid u))
    /\ sent w2 = sent w
    /\ (forall q bytes, fs w !! q = Some bytes -> fs w2 !! q = Some bytes)
    /\ partial_update (C := PK) request w
       = let commit :=
           match int_content_length (req_CONTENT_LENGTH request) with
           | Raise e =>
               (Raise e,
                set_fs (<[fresh (dom (fs w2)) := req_body request]> (fs w2)) w2)
           | Ok n =>
               match env_write_error env (req_body request) n with
               | Some msg =>
                   (Ok (mkResponse (Some msg) [] HTTP_400_BAD_REQUEST), w2)
               | None =>
                   let u' := Package.commit_chunk
                               (Z.of_nat (length (req_body request)))
                               (receiving p u) in
                   (Ok (mkResponse None
                          (add_expiry_header u'
                             [("Upload-Offset", HInt (upload_offset u'))])
                          HTTP_204_NO_CONTENT),
                    mkWorld
                      (<[guid u := u']> (db w2))
                      (<[p := (byte_store w (guid u) ++ req_body request)%list]>
                         (fs w2))
                      (if decide (upload_length u' = upload_offset u')
                       then (sent w ++ [guid u])%list else sent w)
                      (now w2))
               end
           end in
         match env_stage_error env (req_body request) with
         | Some msg => (Ok (mkResponse (Some msg) [] HTTP_400_BAD_REQUEST), w2)
         | None =>
             match req_upload_checksum request with
             | Some (algorithm, digest) =>
                 if decide (algorithm ∉ env_algorithms env)
                 then (Ok (mkResponse
                             (Some ("Unsupported Checksum Algorithm: "
                                    ++ algorithm ++ "."))
                             [] HTTP_400_BAD_REQUEST), w2)
                 else if decide (env_checksum env algorithm (req_body request)
                                 = digest)
                      then commit
                      else (Ok (mkResponse (Some "Checksum Mismatch.") [] 460), w2)
             | None => commit
             end
         end.
Proof.
  intros Hu Hg Ho.
  destruct (patch_prepare_db request w u Hu Hg Ho)
    as (p & w2 & Hrun & Hdb & Hp & Hs & Hold).
  exists p, w2. do 4 (split; [assumption|]).
  rewrite Hrun. clear Hrun. cbv zeta.
  unfold try_except_return.
  destruct (env_stage_error env (req_body request)) as [msg|] eqn:Hstage.
  { unfold Package.write_chunk_to_temp_file. rewrite Hstage. reflexivity. }
  rewrite (stage_ok _ _ _ Hstage).
  assert (Hne : p <> fresh (dom (fs w2))).
  { intros ->. rewrite fresh_path_free in Hp. discriminate. }
  set (chunk := fresh (dom (fs w2))) in *.
  set (w3 := set_fs (<[chunk := req_body request]> (fs w2)) w2).
  assert (Hchunk : fs w3 !! chunk = Some (req_body request))
    by apply lookup_insert_eq.
  assert (Hrm : os_remove chunk w3 = (Ok tt, w2))
    by apply remove_staged.
  assert (Hwf : partial_update_write_file (C := PK) request (receiving p u) chunk w3
    = match int_content_length (req_CONTENT_LENGTH request) with
      | Raise e => (Raise e, w3)
      | Ok n =>
          match env_write_error env (req_body request) n with
          | Some msg => (Ok (mkResponse (Some msg) [] HTTP_400_BAD_REQUEST), w2)
          | None =>
              (Ok (mkResponse None
                     (add_expiry_header
                        (Package.commit_chunk
                           (Z.of_nat (length (req_body request))) (receiving p u))
                        [("Upload-Offset",
                          HInt (upload_offset
                                  (Package.commit_chunk
                                     (Z.of_nat (length (req_body request)))
                                     (receiving p u))))])
                     HTTP_204_NO_CONTENT),
               mkWorld
                 (<[guid u := Package.commit_chunk
                                (Z.of_nat (length (req_body request)))
                                (receiving p u)]> (db w2))
                 (<[p := (byte_store w (guid u) ++ req_body request)%list]> (fs w2))
                 (if decide (upload_length
                               (Package.commit_chunk
                                  (Z.of_nat (length (req_body request)))
                                  (receiving p u))
                             = upload_offset
                                 (Package.commit_chunk
                                    (Z.of_nat (length (req_body request)))
                                    (receiving p u)))
                  then (sent w ++ [guid u])%list else sent w)
                 (now w2))
          end
      end).
  { unfold partial_update_write_file, bind, lift.
    destruct (int_content_length (req_CONTENT_LENGTH request)) as [n|e];
      [|reflexivity].
    unfold try_except_return_finally. simpl.
    unfold Package.read_bytes. rewrite Hchunk.
    unfold Package.write_data.
    destruct (env_write_error env (req_body request) n) as [msg|].
    - rewrite Hrm. reflexivity.
    - rewrite receiving_path.
      assert (Hp3 : fs w3 !! p = Some (byte_store w (guid u))).
      { unfold w3. simpl. rewrite lookup_insert_ne by congruence. exact Hp. }
      rewrite Hp3. cbv zeta.
      unfold os_remove. simpl.
      rewrite lookup_insert_ne by exact Hne. rewrite lookup_insert_eq.
      rewrite delete_insert_ne by congruence.
      rewrite delete_insert_id by apply fresh_path_free.
      rewrite receiving_guid, <- Hs.
      destruct (decide (upload_length (receiving p u)
                        = upload_offset (receiving p u)
                          + Z.of_nat (length (req_body request))));
        unfold signals_received_send, ret, w3; simpl;
        rewrite ?receiving_guid; reflexivity. }
  unfold partial_update_check_checksum.
  destruct (req_upload_checksum request) as [[algorithm digest]|];
    [|exact Hwf].
  simpl.
  destruct (decide (algorithm ∉ env_algorithms env)).
  { unfold bind. rewrite Hrm. reflexivity. }
  unfold bind, Package.is_correct_checksum_for_file, bind, Package.read_bytes.
  rewrite Hchunk. simpl.
  destruct (decide (env_checksum env algorithm (req_body request) = digest))
    as [Heq|Hneq].
  - rewrite bool_decide_eq_true_2 by exact Heq. exact Hwf.
  - rewrite bool_decide_eq_false_2 by exact Hneq. simpl.
    rewrite Hrm. reflexivity.
Qed.

Lemma byte_store_lookup (w : World) (g p : string) (u : Upload) (bytes : list byte) :
  db w !! g = Some u -> temporary_file_path u = Some p ->
  fs w !! p = Some bytes -> byte_store w g = bytes.
Proof.
  intros Hu Hp Hf. unfold byte_store. rewrite Hu, Hp, Hf. reflexivity.
Qed.

Lemma raised_is_not_204 (e : exn) :
  http_status (@Raise Response e) <> HTTP_204_NO_CONTENT.
Proof. destruct e; discriminate. Qed.

(** What a Patch does to the record it addresses and to its bytes. *)
Lemma patch_effect (request : Request) (w : World) (u : Upload) :
  db w !! guid u = Some u ->
  kwargs_guid request = guid u ->
  exists res w' u',
    partial_update (C := PK) request w = (res, w')
    /\ patch_effect_on request w u res w' u'.
Proof.
  intros Hu Hg.
  assert (Hearly : forall e,
            partial_update (C := PK) request w = (Raise e, w) ->
            exists res w' u',
              partial_update (C := PK) request w = (res, w')
              /\ patch_effect_on request w u res w' u').
  { intros e He. exists (Raise e), w, u. split; [exact He|].
    unfold patch_effect_on.
    destruct (decide (http_status (Raise e) = HTTP_204_NO_CONTENT)) as [H|_];
      [destruct (raised_is_not_204 e H)|].
    rewrite insert_id by exact Hu. rewrite app_nil_r.
    repeat split; lia. }
  destruct (req_upload_offset request) as [o|] eqn:Ho.
  2:{ apply (Hearly (AttributeError "upload_offset")).
      unfold partial_update.
      rewrite (bind_ok _ _ w w u)
        by (unfold get_object; rewrite Hg, Hu; reflexivity).
      rewrite Ho. reflexivity. }
  destruct (decide (o = upload_offset u)) as [->|Hne].
  2:{ apply (Hearly Conflict). apply partial_update_offset_mismatch.
      exists u, o. rewrite Hg. auto. }
  clear Hearly.
  destruct (patch_cases request w u Hu Hg Ho)
    as (p & w2 & Hdb & Hp & Hs & Hold & Hrun).
  cbv zeta in Hrun.
  assert (Hu2 : db w2 !! guid u = Some (receiving p u))
    by (rewrite Hdb; apply lookup_insert_eq).
  assert (Hb2 : byte_store w2 (guid u) = byte_store w (guid u))
    by (apply (byte_store_lookup w2 (guid u) p (receiving p u));
        [exact Hu2 | apply receiving_path | exact Hp]).
  (* the request is answered in [w2]: nothing is committed *)
  assert (Hreject : forall resp,
            status resp <> HTTP_204_NO_CONTENT ->
            patch_effect_on request w u (Ok resp) w2 (receiving p u)).
  { intros resp Hst. unfold patch_effect_on. simpl.
    destruct (decide (status resp = HTTP_204_NO_CONTENT)); [contradiction|].
    rewrite app_nil_r, receiving_guid, receiving_length, receiving_offset.
    repeat split; [exact Hdb | lia | exact Hb2 | left; exact Hst]. }
  rewrite Hrun. clear Hrun.
  assert (Hcommit :
    exists u',
      patch_effect_on request w u
        (match int_content_length (req_CONTENT_LENGTH request) with
         | Raise e =>
             (Raise e,
              set_fs (<[fresh (dom (fs w2)) := req_body request]> (fs w2)) w2)
         | Ok n =>
             match env_write_error env (req_body request) n with
             | Some msg =>
                 (Ok (mkResponse (Some msg) [] HTTP_400_BAD_REQUEST), w2)
             | None =>
                 (Ok (mkResponse None
                        (add_expiry_header
                           (Package.commit_chunk
                              (Z.of_nat (length (req_body request)))
                              (receiving p u))
                           [("Upload-Offset",
                             HInt (upload_offset
                                     (Package.commit_chunk
                                        (Z.of_nat (length (req_body request)))
                                        (receiving p u))))])
                        HTTP_204_NO_CONTENT),
                  mkWorld
                    (<[guid u := Package.commit_chunk
                                   (Z.of_nat (length (req_body request)))
                                   (receiving p u)]> (db w2))
                    (<[p := (byte_store w (guid u) ++ req_body request)%list]>
                       (fs w2))
                    (if decide (upload_length
                                  (Package.commit_chunk
                                     (Z.of_nat (length (req_body request)))
                                     (receiving p u))
                                = upload_offset
                                    (Package.commit_chunk
                                       (Z.of_nat (length (req_body request)))
                                       (receiving p u)))
                     then (sent w ++ [guid u])%list else sent w)
                    (now w2))
             end
         end).1
        (match int_content_length (req_CONTENT_LENGTH request) with
         | Raise e =>
             (Raise e,
              set_fs (<[fresh (dom (fs w2)) := req_body request]> (fs w2)) w2)
         | Ok n =>
             match env_write_error env (req_body request) n with
             | Some msg =>
                 (Ok (mkResponse (Some msg) [] HTTP_400_BAD_REQUEST), w2)
             | None =>
                 (Ok (mkResponse None
                        (add_expiry_header
                           (Package.commit_chunk
                              (Z.of_nat (length (req_body request)))
                              (receiving p u))
                           [("Upload-Offset",
                             HInt (upload_offset
                                     (Package.commit_chunk
                                        (Z.of_nat (length (req_body request)))
                                        (receiving p u))))])
                        HTTP_204_NO_CONTENT),
                  mkWorld
                    (<[guid u := Package.commit_chunk
                                   (Z.of_nat (length (req_body request)))
                                   (receiving p u)]> (db w2))
                    (<[p := (byte_store w (guid u) ++ req_body request)%list]>
                       (fs w2))
                    (if decide (upload_length
                                  (Package.commit_chunk
                                     (Z.of_nat (length (req_body request)))
                                     (receiving p u))
                                = upload_offset
                                    (Package.commit_chunk
                                       (Z.of_nat (length (req_body request)))
                                       (receiving p u)))
                     then (sent w ++ [guid u])%list else sent w)
                    (now w2))
             end
         end).2 u').
  { destruct (int_content_length (req_CONTENT_LENGTH request)) as [n|e].
    - destruct (env_write_error env (req_body request) n) as [msg|].
      + exists (receiving p u). apply Hreject. discriminate.
      + exists (Package.commit_chunk (Z.of_nat (length (req_body request)))
                                     (receiving p u)).
        unfold patch_effect_on. simpl.
        destruct (decide (HTTP_204_NO_CONTENT = HTTP_204_NO_CONTENT));
          [|contradiction].
        split; [rewrite Hdb; apply insert_insert_eq|].
        rewrite ?receiving_guid, ?receiving_length, ?receiving_offset.
        do 3 (split; [reflexivity|]).
        split; [|right; unfold add_expiry_header;
                 destruct (expires _); reflexivity].
        eapply byte_store_lookup; simpl;
          [apply lookup_insert_eq | apply receiving_path | apply lookup_insert_eq].
    - exists (receiving p u). unfold patch_effect_on. simpl fst. simpl snd.
      destruct (decide (http_status (Raise e) = HTTP_204_NO_CONTENT)) as [H|_];
        [destruct (raised_is_not_204 e H)|].
      rewrite app_nil_r, receiving_guid, receiving_length, receiving_offset.
      split; [exact Hdb|]. do 2 (split; [reflexivity|]).
      split; [lia|]. split; [|exact I].
      apply (byte_store_lookup _ (guid u) p (receiving p u));
        [exact Hu2 | apply receiving_path |].
      simpl. rewrite lookup_insert_ne; [exact Hp|].
      intros <-. rewrite fresh_path_free in Hp. discriminate. }
  destruct Hcommit as [uc Hcommit].
  destruct (env_stage_error env (req_body request)) as [msg|].
  { eexists _, _, _. split; [reflexivity|]. apply Hreject. discriminate. }
  destruct (req_upload_checksum request) as [[algorithm digest]|].
  - destruct (decide (algorithm ∉ env_algorithms env)).
    { eexists _, _, _. split; [reflexivity|]. apply Hreject. discriminate. }
    destruct (decide (env_checksum env algorithm (req_body request) = digest)).
    + eexists _, _, uc. split; [apply surjective_pairing|]. exact Hcommit.
    + eexists _, _, _. split; [reflexivity|]. apply Hreject. discriminate.
  - eexists _, _, uc. split; [apply surjective_pairing|]. exact Hcommit.
Qed.
End PatchEffect.

(** Any Patch keeps the table well formed, creates and deletes no record,
    and lowers no offset. *)
Lemma patch_step (env : Environment) (request : Request) (w : World) :
  db_wf w ->
  db_wf (partial_update (C := Package.collaborators env) request w).2
  /\ forall g,
       match db w !! g with
       | Some u =>
           exists u',
             db (partial_update (C := Package.collaborators env) request w).2 !! g
               = Some u'
             /\ upload_offset u <= upload_offset u'
             /\ upload_length u' = upload_length u
       | None =>
           db (partial_update (C := Package.collaborators env) request w).2 !! g
             = None
       end.
Proof.
  intros Hwf.
  destruct (db w !! kwargs_guid request) as [u|] eqn:Hu.
  - pose proof (Hwf _ _ Hu) as Hg. rewrite <- Hg in Hu.
    destruct (patch_effect env request w u Hu (eq_sym Hg))
      as (res & w' & u' & Hrun & Hdb & Hgu & Hlen & Hoff & _).
    rewrite Hrun. simpl. split.
    + intros g v. rewrite Hdb. rewrite lookup_insert.
      destruct (decide (guid u = g)) as [<-|Hne].
      * intros [= <-]. exact Hgu.
      * apply Hwf.
    + intros g. rewrite Hdb. rewrite lookup_insert.
      destruct (decide (guid u = g)) as [<-|Hne].
      * rewrite Hu. exists u'. split; [reflexivity|]. split; [|exact Hlen].
        rewrite Hoff. destruct (decide _); lia.
      * destruct (db w !! g) as [v|]; [|reflexivity].
        exists v. split; [reflexivity|]. split; [lia|reflexivity].
  - assert (Hrun : partial_update (C := Package.collaborators env) request w
                   = (Raise Http404, w)).
    { unfold partial_update, bind, get_object. rewrite Hu. reflexivity. }
    rewrite Hrun. simpl. split; [exact Hwf|].
    intros g. destruct (db w !! g) as [v|]; [|reflexivity].
    exists v. split; [reflexivity|]. split; [lia|reflexivity].
Qed.

Lemma sample_world_two_wf : db_wf SampleHead.world_two.
Proof.
  intros g u. unfold SampleHead.world_two. simpl.
  rewrite lookup_insert. destruct (decide ("u1" = g)) as [<-|_].
  - intros [= <-]. reflexivity.
  - rewrite lookup_singleton. destruct (decide ("u0" = g)) as [<-|_].
    + intros [= <-]. reflexivity.
    + discriminate.
Qed.

(** X1. [create] never raises.  It answers 413 exactly when the declared
    length (-1 when the request has none) exceeds TUS_MAX_FILE_SIZE;
    otherwise 400 exactly when that length is zero or negative and the
    defer-length attribute is not 1; otherwise 201.  Unless the answer is
    201 the world is left as it was. *)
Theorem create_answers {C : Collaborators} (request : Request) (w : World) :
  exists resp w',
    create request w = (Ok resp, w')
    /\ status resp
       = (if decide (default (-1) (req_upload_length request) > TUS_MAX_FILE_SIZE)
          then HTTP_413_REQUEST_ENTITY_TOO_LARGE
          else if decide (default (-1) (req_upload_length request) <= 0
                          /\ default (-1) (req_upload_defer_length request) <> 1)
               then HTTP_400_BAD_REQUEST
               else HTTP_201_CREATED)
    /\ (status resp = HTTP_201_CREATED \/ w' = w).
Proof.
  destruct (create_cases request w) as (resp & w' & Hrun & Hstatus & Hworld).
  exists resp, w'. split; [exact Hrun|]. split; [exact Hstatus | exact Hworld].
Qed.



(** X3. After a 201 of [create], a Head request for the guid named in the
    Location header is answered 200 with Upload-Offset 0, the declared
    length in Upload-Length, or no Upload-Length when the declared length
    is negative (deferred), and the same Upload-Expires as the Create. *)
Theorem create_then_info {C : Collaborators} {J : MetadataCodec}
    (request : Request) (w w' : World) (resp : Response) :
  create request w = (Ok resp, w') ->
  status resp = HTTP_201_CREATED ->
  exists g head,
    header_get "Location" (headers resp) = Some (HStr (reverse_upload_detail g))
    /\ db w !! g = None
    /\ info (request_for g) w' = (Ok head, w')
    /\ status head = HTTP_200_OK
    /\ header_get "Upload-Offset" (headers head) = Some (HInt 0)
    /\ header_get "Upload-Length" (headers head)
       = (if decide (default (-1) (req_upload_length request) >= 0)
          then Some (HInt (default (-1) (req_upload_length request)))
          else None)
    /\ header_get "Upload-Expires" (headers head)
       = header_get "Upload-Expires" (headers resp).
Proof.
  intros Hrun H201.
  destruct (create_effect request w w' resp Hrun H201)
    as (u & Hfree & Hdb & _ & Hoff & Hlen & _ & _ & _ & _ & Hloc & Hexp & _).
  assert (Hu : db w' !! kwargs_guid (request_for (guid u)) = Some u)
    by (rewrite Hdb; apply lookup_insert_eq).
  destruct (info_found (request_for (guid u)) w' u Hu)
    as (head & Hinfo & H200 & _ & Ho & Hl & He).
  exists (guid u), head. rewrite Ho, Hl, He, Hoff, Hlen, Hexp. auto 10.
Qed.

Lemma create_then_info_witness :
  let C := Package.collaborators Sample.env in
  let request := Sample.post (Some 10) None in
  let resp := mkResponse None
                [("Location", HStr (reverse_upload_detail
                                      (fresh (dom (db Sample.world0)))))]
                HTTP_201_CREATED in
  let w' := (create request Sample.world0).2 in
  exists g head,
    header_get "Location" (headers resp) = Some (HStr (reverse_upload_detail g))
    /\ db Sample.world0 !! g = None
    /\ info (J := SampleHead.codec) (request_for g) w' = (Ok head, w')
    /\ status head = HTTP_200_OK
    /\ header_get "Upload-Offset" (headers head) = Some (HInt 0)
    /\ header_get "Upload-Length" (headers head)
       = (if decide (default (-1) (req_upload_length request) >= 0)
          then Some (HInt (default (-1) (req_upload_length request)))
          else None)
    /\ header_get "Upload-Expires" (headers head)
       = header_get "Upload-Expires" (headers resp).
Proof.
  intros C request resp w'.
  apply (create_then_info (C := C) (J := SampleHead.codec)
           request Sample.world0 w' resp).
  - reflexivity.
  - reflexivity.
Defined.

(** X4. [info] never raises and never changes the world; its answer always
    carries Cache-Control: no-store; the status is 200 when the guid of the
    route is that of a record, and 404 otherwise. *)
Theorem info_never_raises_no_store {J : MetadataCodec}
    (request : Request) (w : World) :
  exists resp,
    info request w = (Ok resp, w)
    /\ header_get "Cache-Control" (headers resp) = Some (HStr "no-store")
    /\ status resp = match db w !! kwargs_guid request with
                     | Some _ => HTTP_200_OK
                     | None => HTTP_404_NOT_FOUND
                     end.
Proof.
  destruct (db w !! kwargs_guid request) as [u|] eqn:Hu.
  - destruct (info_found request w u Hu) as (resp & Hrun & H200 & Hcc & _).
    exists resp. auto.
  - unfold info, try_except_Http404_return, get_object. rewrite Hu.
    eexists. repeat split; reflexivity.
Qed.

(** X5. For a record of the table, [info] answers 200 with the record's
    offset in Upload-Offset, its declared length in Upload-Length when that
    length is not negative and no Upload-Length header when it is, and the
    record's expiry, if any, in Upload-Expires. *)
Theorem info_reports_offset_and_length {J : MetadataCodec}
    (request : Request) (w : World) (u : Upload) :
  db w !! kwargs_guid request = Some u ->
  exists resp,
    info request w = (Ok resp, w)
    /\ status resp = HTTP_200_OK
    /\ header_get "Upload-Offset" (headers resp) = Some (HInt (upload_offset u))
    /\ header_get "Upload-Length" (headers resp)
       = (if decide (upload_length u >= 0) then Some (HInt (upload_length u))
          else None)
    /\ header_get "Upload-Expires" (headers resp) = HDate <$> expires u.
Proof.
  intros Hu.
  destruct (info_found request w u Hu) as (resp & Hrun & H200 & _ & Hrest).
  exists resp. auto.
Qed.

Lemma info_reports_offset_and_length_witness :
  exists resp,
    info (J := SampleHead.codec) (request_for "u1") SampleHead.world_two
      = (Ok resp, SampleHead.world_two)
    /\ status resp = HTTP_200_OK
    /\ header_get "Upload-Offset" (headers resp) = Some (HInt 7)
    /\ header_get "Upload-Length" (headers resp)
       = (if decide (20 >= 0) then Some (HInt 20) else None)
    /\ header_get "Upload-Expires" (headers resp) = HDate <$> None.
Proof.
  apply (info_reports_offset_and_length (J := SampleHead.codec)
           (request_for "u1") SampleHead.world_two
           (mkUpload "u1" RECEIVING 20 7 [] EmptyString None None)).
  reflexivity.
Defined.

(** X6. For a guid that is not in the table, [partial_update] and
    [destroy] raise Http404, which the framework answers with 404, and
    leave the world as it was. *)
Theorem patch_and_destroy_unknown_upload {C : Collaborators}
    (request : Request) (w : World) :
  db w !! kwargs_guid request = None ->
  partial_update request w = (Raise Http404, w)
  /\ destroy request w = (Raise Http404, w)
  /\ http_status (Raise Http404) = HTTP_404_NOT_FOUND.
Proof.
  intros Hnone.
  unfold partial_update, destroy, bind, get_object. rewrite Hnone.
  repeat split; reflexivity.
Qed.

Lemma patch_and_destroy_unknown_upload_witness :
  let C := Package.collaborators Sample.env in
  partial_update (request_for "nobody") Sample.world0
    = (Raise Http404, Sample.world0)
  /\ destroy (request_for "nobody") Sample.world0
     = (Raise Http404, Sample.world0)
  /\ http_status (Raise Http404) = HTTP_404_NOT_FOUND.
Proof.
  intros C.
  apply (patch_and_destroy_unknown_upload (C := C)
           (request_for "nobody") Sample.world0).
  reflexivity.
Defined.

(** X7. The limit [determine_metadata] advertises in Tus-Max-Size is the
    one [create] enforces: a Create that declares a length is answered 413
    exactly when that length exceeds the advertised value. *)
Theorem advertised_max_size_is_enforced {C : Collaborators} {V : ApiVersion}
    (request : Request) (w : World) (n : Z) :
  req_upload_length request = Some n ->
  exists m resp w',
    header_get "Tus-Max-Size" determine_metadata = Some (HInt m)
    /\ create request w = (Ok resp, w')
    /\ (status resp = HTTP_413_REQUEST_ENTITY_TOO_LARGE <-> n > m).
Proof.
  intros Hn.
  destruct (create_cases request w) as (resp & w' & Hrun & Hst & _).
  exists TUS_MAX_FILE_SIZE, resp, w'.
  split; [reflexivity|]. split; [exact Hrun|].
  rewrite Hn in Hst. simpl in Hst. rewrite Hst.
  destruct (decide (n > TUS_MAX_FILE_SIZE)) as [Hgt|Hle]; [tauto|].
  destruct (decide (n <= 0 /\ _)); split; intros H;
    try contradiction; discriminate H.
Qed.

Lemma advertised_max_size_is_enforced_witness :
  let C := Package.collaborators Sample.env in
  exists m resp w',
    header_get "Tus-Max-Size" (determine_metadata (V := SampleHead.api))
      = Some (HInt m)
    /\ create (Sample.post (Some 1001) None) Sample.world0 = (Ok resp, w')
    /\ (status resp = HTTP_413_REQUEST_ENTITY_TOO_LARGE <-> 1001 > m).
Proof.
  intros C.
  apply (advertised_max_size_is_enforced (C := C) (V := SampleHead.api)
           (Sample.post (Some 1001) None) Sample.world0 1001).
  reflexivity.
Defined.

(** X8. Whatever a Patch to a record of the table carries and however it
    ends, that record stays in the table under its guid with its declared
    length, and no other record changes; its offset and the bytes
    committed for it grow by the body of the request when the answer is
    204, and are what they were in every other case. *)
Theorem patch_changes_offset_only_by_commit (env : Environment)
    (request : Request) (w : World) (u : Upload) :
  db w !! guid u = Some u ->
  kwargs_guid request = guid u ->
  exists res w' u',
    partial_update (C := Package.collaborators env) request w = (res, w')
    /\ db w' = <[guid u := u']> (db w)
    /\ guid u' = guid u
    /\ upload_length u' = upload_length u
    /\ upload_offset u'
       = upload_offset u
         + (if decide (http_status res = HTTP_204_NO_CONTENT)
            then Z.of_nat (length (req_body request)) else 0)
    /\ byte_store w' (guid u)
       = (byte_store w (guid u)
          ++ (if decide (http_status res = HTTP_204_NO_CONTENT)
              then req_body request else []))%list.
Proof.
  intros Hu Hg.
  destruct (patch_effect env request w u Hu Hg)
    as (res & w' & u' & Hrun & Hdb & Hgu & Hlen & Hoff & Hbytes & _).
  exists res, w', u'. auto 10.
Qed.

Lemma patch_changes_offset_only_by_commit_witness :
  exists res w' u',
    partial_update (C := Package.collaborators Sample.env)
                   (Sample.patch 0 None None Sample.abc) Sample.world0
      = (res, w')
    /\ db w' = <["u0" := u']> (db Sample.world0)
    /\ guid u' = "u0"
    /\ upload_length u' = 10
    /\ upload_offset u'
       = 0 + (if decide (http_status res = HTTP_204_NO_CONTENT)
              then 3 else 0)
    /\ byte_store w' "u0"
       = (byte_store Sample.world0 "u0"
          ++ (if decide (http_status res = HTTP_204_NO_CONTENT)
              then Sample.abc else []))%list.
Proof.
  apply (patch_changes_offset_only_by_commit Sample.env
           (Sample.patch 0 None None Sample.abc) Sample.world0 Sample.upload0);
    reflexivity.
Defined.

(** X9. Over any sequence of Patch requests, to whatever guids, the table
    stays well formed, no record appears or disappears, no declared length
    changes and no offset decreases. *)
Theorem patch_sequence_offsets_monotone (env : Environment)
    (requests : list Request) (w : World) :
  db_wf w ->
  let w' := (run (partial_update (C := Package.collaborators env)) requests w).2 in
  db_wf w'
  /\ forall g,
       match db w !! g with
       | Some u =>
           exists u',
             db w' !! g = Some u'
             /\ upload_offset u <= upload_offset u'
             /\ upload_length u' = upload_length u
       | None => db w' !! g = None
       end.
Proof.
  revert w. induction requests as [|r rs IH]; intros w Hwf; simpl.
  - split; [exact Hwf|]. intros g. destruct (db w !! g) as [u|]; [|reflexivity].
    exists u. split; [reflexivity|]. split; [lia|reflexivity].
  - destruct (patch_step env r w Hwf) as [Hwf1 Hstep].
    destruct (partial_update r w) as [res w1]. simpl in Hwf1, Hstep.
    destruct (IH w1 Hwf1) as [Hwf2 Hrest].
    destruct (run partial_update rs w1) as [ress w2]. simpl in *.
    split; [exact Hwf2|]. intros g.
    specialize (Hstep g). specialize (Hrest g).
    destruct (db w !! g) as [u|].
    + destruct Hstep as (u1 & Hu1 & Ho1 & Hl1). rewrite Hu1 in Hrest.
      destruct Hrest as (u2 & Hu2 & Ho2 & Hl2).
      exists u2. split; [exact Hu2|]. split; [lia|congruence].
    + rewrite Hstep in Hrest. exact Hrest.
Qed.

Lemma patch_sequence_offsets_monotone_witness :
  let requests := [Sample.patch 0 None None Sample.abc;
                   Sample.patch 0 None None Sample.abc;
                   Sample.patch 3 None None Sample.abc] in
  let w' := (run (partial_update (C := Package.collaborators Sample.env))
                 requests SampleHead.world_two).2 in
  db_wf w'
  /\ forall g,
       match db SampleHead.world_two !! g with
       | Some u =>
           exists u',
             db w' !! g = Some u'
             /\ upload_offset u <= upload_offset u'
             /\ upload_length u' = upload_length u
       | None => db w' !! g = None
       end.
Proof.
  intros requests.
  apply (patch_sequence_offsets_monotone Sample.env requests SampleHead.world_two).
  exact sample_world_two_wf.
Defined.

(** X10. After a Patch answered 204, a Head request for the same upload
    reports in Upload-Offset the previous offset plus the size of the
    body, which is also what the 204 carried in its Upload-Offset. *)
Theorem patch_then_info (env : Environment) {J : MetadataCodec}
    (request : Request) (w w' : World) (u : Upload) (resp : Response) :
  db w !! guid u = Some u ->
  kwargs_guid request = guid u ->
  partial_update (C := Package.collaborators env) request w = (Ok resp, w') ->
  status resp = HTTP_204_NO_CONTENT ->
  exists head,
    info request w' = (Ok head, w')
    /\ status head = HTTP_200_OK
    /\ header_get "Upload-Offset" (headers head)
       = Some (HInt (upload_offset u + Z.of_nat (length (req_body request))))
    /\ header_get "Upload-Offset" (headers resp)
       = header_get "Upload-Offset" (headers head).
Proof.
  intros Hu Hg Hrun H204.
  destruct (patch_effect env request w u Hu Hg)
    as (res & w1 & u' & Hrun' & Hdb & _ & _ & Hoff & _ & Hhdr).
  rewrite Hrun in Hrun'. injection Hrun' as <- <-. simpl in Hoff, Hhdr.
  destruct (decide (status resp = HTTP_204_NO_CONTENT)); [|contradiction].
  destruct Hhdr as [Hn|Hhdr]; [contradiction|].
  assert (Hu' : db w' !! kwargs_guid request = Some u')
    by (rewrite Hg, Hdb; apply lookup_insert_eq).
  destruct (info_found request w' u' Hu') as (head & Hinfo & H200 & _ & Ho & _).
  exists head. rewrite Hhdr, Ho, Hoff. auto.
Qed.

Lemma patch_then_info_witness :
  let w' := (partial_update (C := Package.collaborators Sample.env)
               (Sample.patch 0 None None Sample.abc) Sample.world0).2 in
  exists head,
    info (J := SampleHead.codec) (Sample.patch 0 None None Sample.abc) w'
      = (Ok head, w')
    /\ status head = HTTP_200_OK
    /\ header_get "Upload-Offset" (headers head) = Some (HInt (0 + 3))
    /\ header_get "Upload-Offset"
         (headers (mkResponse None [("Upload-Offset", HInt 3)]
                              HTTP_204_NO_CONTENT))
       = header_get "Upload-Offset" (headers head).
Proof.
  intros w'.
  apply (patch_then_info Sample.env (J := SampleHead.codec)
           (Sample.patch 0 None None Sample.abc) Sample.world0 w'
           Sample.upload0
           (mkResponse None [("Upload-Offset", HInt 3)] HTTP_204_NO_CONTENT)).
  - reflexivity.
  - reflexivity.
  - vm_compute. reflexivity.
  - reflexivity.
Defined.



(** X12. After a Terminate answered 204, a Head request for the same guid
    is answered 404 with Cache-Control: no-store, and a second Terminate
    or a Patch raises Http404. *)
Theorem destroy_then_head_404 (env : Environment) {J : MetadataCodec}
    (request : Request) (w : World) (u : Upload) :
  db w !! guid u = Some u ->
  kwargs_guid request = guid u ->
  state u <> SAVING ->
  exists w' head,
    destroy (C := Package.collaborators env) request w
      = (Ok (mkResponse None [] HTTP_204_NO_CONTENT), w')
    /\ info request w' = (Ok head, w')
    /\ status head = HTTP_404_NOT_FOUND
    /\ header_get "Cache-Control" (headers head) = Some (HStr "no-store")
    /\ destroy (C := Package.collaborators env) request w' = (Raise Http404, w')
    /\ partial_update (C := Package.collaborators env) request w'
       = (Raise Http404, w').
Proof.
  intros Hu Hg Hst.
  assert (Hget : get_object request w = (Ok u, w))
    by (unfold get_object; rewrite Hg, Hu; reflexivity).
  set (w' := (Package.upload_delete u w).2).
  assert (Hd : destroy (C := Package.collaborators env) request w
               = (Ok (mkResponse None [] HTTP_204_NO_CONTENT), w')).
  { unfold destroy. rewrite (bind_ok _ _ _ _ _ Hget).
    destruct (decide (state u = SAVING)); [contradiction|]. reflexivity. }
  assert (Hgone : db w' !! kwargs_guid request = None)
    by (rewrite Hg; apply lookup_delete_eq).
  exists w'. eexists. split; [exact Hd|].
  unfold info, try_except_Http404_return, destroy, partial_update, bind, get_object.
  rewrite Hgone. repeat split; reflexivity.
Qed.

Lemma destroy_then_head_404_witness :
  exists w' head,
    destroy (C := Package.collaborators Sample.env) Sample.delete_u0
            Sample.world0
      = (Ok (mkResponse None [] HTTP_204_NO_CONTENT), w')
    /\ info (J := SampleHead.codec) Sample.delete_u0 w' = (Ok head, w')
    /\ status head = HTTP_404_NOT_FOUND
    /\ header_get "Cache-Control" (headers head) = Some (HStr "no-store")
    /\ destroy (C := Package.collaborators Sample.env) Sample.delete_u0 w'
       = (Raise Http404, w')
    /\ partial_update (C := Package.collaborators Sample.env)
                      Sample.delete_u0 w'
       = (Raise Http404, w').
Proof.
  apply (destroy_then_head_404 Sample.env (J := SampleHead.codec)
           Sample.delete_u0 Sample.world0 Sample.upload0).
  - reflexivity.
  - reflexivity.
  - discriminate.
Defined.

